(** * Paint/e-mail agent: the iteration loop of [autonomous_paint_agent.py]

    A shallow embedding of the agent's main loop: the directive parser
    (lines 249-253), the argument mapper (lines 255-328), the tool invoker
    (lines 333-342), the transcript (lines 344-351) and the bounded
    [while] loop that ties them together (lines 237-375).

    Python [str] values are Rocq strings; one [ascii] stands for one code
    point below 256.  Python [int] is [Z], the 0-based iteration counter is
    [nat].  The [arguments] dict is a [gmap string pyval]. *)

From Stdlib Require Import ZArith Ascii String DecimalString.
From stdpp Require Import gmap strings list.

Local Open Scope Z_scope.
Local Open Scope nat_scope.

(** ** Python string primitives *)

Module PyStr.

(** [str.isspace] on one code point below 256: TAB..CR, FS..US, space,
    NEL and NBSP.  This is the set [str.strip()] removes. *)
Definition is_space (c : ascii) : bool :=
  let n := nat_of_ascii c in
  ((9 <=? n) && (n <=? 13)) || ((28 <=? n) && (n <=? 32))
  || (n =? 133) || (n =? 160).

Fixpoint lstrip (s : string) : string :=
  match s with
  | EmptyString => EmptyString
  | String c s' => if is_space c then lstrip s' else s
  end.

Fixpoint rstrip (s : string) : string :=
  match s with
  | EmptyString => EmptyString
  | String c s' =>
      match rstrip s' with
      | EmptyString => if is_space c then EmptyString else String c EmptyString
      | r => String c r
      end
  end.

(** [s.strip()] *)
Definition strip (s : string) : string := rstrip (lstrip s).

(** [s.startswith(p)] *)
Definition startswith (s p : string) : bool := String.prefix p s.

(** [s.split(sep)] for a one-character separator: never empty, one more
    field than there are separators. *)
Fixpoint split (sep : ascii) (s : string) : list string :=
  match s with
  | EmptyString => [EmptyString]
  | String c s' =>
      if Ascii.eqb c sep then EmptyString :: split sep s'
      else match split sep s' with
           | f :: fs => String c f :: fs
           | [] => [String c EmptyString]
           end
  end.

(** [s.split(sep, 1)]: cut at the first separator only. *)
Fixpoint split1 (sep : ascii) (s : string) : list string :=
  match s with
  | EmptyString => [EmptyString]
  | String c s' =>
      if Ascii.eqb c sep then [EmptyString; s']
      else match split1 sep s' with
           | f :: fs => String c f :: fs
           | [] => [String c EmptyString]
           end
  end.

(** [sep.join(parts)] *)
Fixpoint join (sep : string) (parts : list string) : string :=
  match parts with
  | [] => EmptyString
  | [p] => p
  | p :: rest => p +:+ sep +:+ join sep rest
  end.

(** Number of occurrences of a character: [s.count(c)]. *)
Fixpoint count (c : ascii) (s : string) : nat :=
  match s with
  | EmptyString => 0
  | String d s' => (if Ascii.eqb d c then 1 else 0) + count c s'
  end.

(** [str(n)] for a non-negative integer. *)
Definition of_nat (n : nat) : string := NilEmpty.string_of_uint (Nat.to_uint n).

(** First and last code point, when there is one. *)
Definition head (s : string) : option ascii :=
  match s with EmptyString => None | String c _ => Some c end.

Fixpoint last (s : string) : option ascii :=
  match s with
  | EmptyString => None
  | String c EmptyString => Some c
  | String _ s' => last s'
  end.

(** A string is trimmed when neither end is white space. *)
Definition trimmed (s : string) : Prop :=
  (forall c, head s = Some c -> is_space c = false) /\
  (forall c, last s = Some c -> is_space c = false).

Definition nl : string := String (ascii_of_nat 10) EmptyString.
Definition dquote : string := String (ascii_of_nat 34) EmptyString.

End PyStr.

(** ** [int(s)]: base-10 literal, optional sign, single underscores between
    digits, surrounding blanks ignored, and the interpreter's default cap
    of 4300 digits on the literal. *)

Module PyInt.

Definition digit (c : ascii) : option Z :=
  let n := nat_of_ascii c in
  if (48 <=? n) && (n <=? 57) then Some (Z.of_nat (n - 48)) else None.

(** Blanks skipped by [int]: the C locale's space set, plus NEL and NBSP
    which are first folded to a space. *)
Definition is_blank (c : ascii) : bool :=
  let n := nat_of_ascii c in
  ((9 <=? n) && (n <=? 13)) || (n =? 32) || (n =? 133) || (n =? 160).

Fixpoint lskip (s : string) : string :=
  match s with
  | EmptyString => EmptyString
  | String c s' => if is_blank c then lskip s' else s
  end.

Fixpoint rskip (s : string) : string :=
  match s with
  | EmptyString => EmptyString
  | String c s' =>
      match rskip s' with
      | EmptyString => if is_blank c then EmptyString else String c EmptyString
      | r => String c r
      end
  end.

(** [after_digit] says whether the previous character was a digit, the
    only place where an underscore or the end of the literal may come. *)
Fixpoint digits (after_digit : bool) (acc : Z) (s : string) : option Z :=
  match s with
  | EmptyString => if after_digit then Some acc else None
  | String c s' =>
      if Ascii.eqb c "_"%char then
        if after_digit then digits false acc s' else None
      else
        match digit c with
        | Some d => digits true (10 * acc + d)%Z s'
        | None => None
        end
  end.

(** The sign and the digits of a literal whose blanks are gone. *)
Definition literal_value (t : string) : option Z :=
  match t with
  | EmptyString => None
  | String c r =>
      if Ascii.eqb c "+"%char then digits false 0%Z r
      else if Ascii.eqb c "-"%char then Z.opp <$> digits false 0%Z r
      else digits false 0%Z t
  end.

(** [sys.int_info.default_max_str_digits]: a literal with more digits than
    this raises [ValueError]; the agent does not change the setting. *)
Definition int_max_str_digits : nat := 4300.

(** The digits of a literal, underscores and sign not counted. *)
Fixpoint digit_count (s : string) : nat :=
  match s with
  | EmptyString => 0
  | String c s' =>
      match digit c with Some _ => 1 | None => 0 end + digit_count s'
  end.

Definition parse (s : string) : option Z :=
  let t := rskip (lskip s) in
  if int_max_str_digits <? digit_count t then None else literal_value t.

Arguments int_max_str_digits : simpl never.
Arguments parse : simpl never.

End PyInt.

(** ** Data model *)

(** Values stored in the [arguments] dict: strings and integers. *)
Inductive pyval : Type :=
  | VStr (s : string)
  | VInt (z : Z).

(** Exceptions that can be raised inside the [try] block of one pass. *)
Inductive exn : Type :=
  | GenerationError               (* generate_with_timeout raised, or no text *)
  | UnpackError                   (* _, function_info = ... *)
  | IndexError                    (* params[i], result.content[0] *)
  | ValueError (literal : string) (* int(literal) *)
  | AttributeError                (* result.content[0].text *)
  | ToolError.                    (* session.call_tool raised *)

Inductive outcome (A : Type) : Type :=
  | Ok (a : A)
  | Raise (e : exn).
Arguments Ok {A} a.
Arguments Raise {A} e.

Global Instance outcome_ret : MRet outcome := fun _ a => Ok a.
Global Instance outcome_bind : MBind outcome := fun _ _ f m =>
  match m with
  | Ok a => f a
  | Raise e => Raise e
  end.

(** What the model's line asks for (spec section 3).  [Final] carries the
    whole line: the source prints [response_text] and cuts no summary out
    of it. *)
Inductive directive : Type :=
  | Call (name : string) (args : list string)
  | Final (text : string)
  | Malformed (raw : string).

(** The value returned by [session.call_tool]: only the shape that
    lines 336-342 inspect. *)
Inductive content_item : Type :=
  | TextContent (text : string)
  | OtherContent.                 (* an item without a [text] attribute *)

Inductive tool_result : Type :=
  | ContentList (content : list content_item)
  | ContentOther (repr : string)  (* content is not a list: str(result.content) *)
  | NoContent (repr : string).    (* no content attribute: str(result) *)

(** Observable actions of the loop, in program order. *)
Inductive event : Type :=
  | EvIteration (n : nat)                              (* "=== Iteration n ===" *)
  | EvGenerate (prompt : string)                       (* generate_with_timeout *)
  | EvResponse (text : string)                         (* "LLM Response: ..." *)
  | EvCallTool (name : string) (arguments : gmap string pyval)
  | EvToolReturned (result : tool_result)              (* the awaited call returned *)
  | EvComplete (text : string)                         (* "Agent Execution Complete" *)
  | EvUnexpected (text : string)                       (* "Unexpected response format" *)
  | EvError (n : nat) (e : exn)                        (* "Error in iteration n: e" *)
  | EvMaxIterations.                                   (* "Maximum iterations reached" *)

(** The two module-level globals and the loop-carried [query]. *)
Record loop_state : Type := {
  iteration : nat;
  iteration_response : list string;
  query : string
}.

Inductive control : Type :=
  | Next (st : loop_state)   (* fell through to [iteration += 1] *)
  | Stop.                    (* [break] *)

(** ** An action: the events it emits and its value or exception *)

Definition act (A : Type) : Type := (list event * outcome A)%type.

Global Instance act_ret : MRet act := fun _ a => ([], Ok a).
Global Instance act_bind : MBind act := fun _ _ f m =>
  match m with
  | (evs, Ok a) => let '(evs', r) := f a in (evs ++ evs', r)
  | (evs, Raise e) => (evs, Raise e)
  end.

Definition emit (e : event) : act unit := ([e], Ok tt).
Definition lift {A} (r : outcome A) : act A := ([], r).

(** ** The [os.path] functions used by the mapper *)

Class OsPath : Type := {
  path_exists : string -> bool;              (* os.path.exists *)
  path_join : string -> list string -> string; (* os.path.join(a, *p) *)
  path_abspath : string -> string            (* os.path.abspath *)
}.

(** Facts about [os.path] the attachment claim rests on. *)
Class OsPathLaws (P : OsPath) : Prop := {
  exists_empty : path_exists "" = false;
  join_nonempty : forall a ps, a <> "" -> path_join a ps <> "";
  abspath_nonempty : forall p, path_abspath p <> ""
}.

(** A dict display [{k1: v1, k2: v2, ...}]: keys are stored left to right,
    a later key replaces an earlier equal one. *)
Definition dict (items : list (string * pyval)) : gmap string pyval :=
  fold_left (fun m kv => <[kv.1 := kv.2]> m) items ∅.

Definition py_int (s : string) : outcome Z :=
  match PyInt.parse s with
  | Some z => Ok z
  | None => Raise (ValueError s)
  end.

(** [params[i]] *)
Definition getitem (params : list string) (i : nat) : outcome string :=
  match params !! i with
  | Some p => Ok p
  | None => Raise IndexError
  end.

Definition FUNCTION_CALL : string := "FUNCTION_CALL:".
Definition FINAL_ANSWER : string := "FINAL_ANSWER:".

(** ** Directive parser (lines 249-253, 358, 363) *)

Definition parse_call (response_text : string) : outcome (string * list string) :=
  match PyStr.split1 ":" response_text with
  | [_; function_info] =>
      let parts := PyStr.strip <$> PyStr.split "|" function_info in
      match parts with
      | func_name :: params => Ok (func_name, params)
      | [] => Raise IndexError
      end
  | _ => Raise UnpackError
  end.

Definition parse_directive (response_text : string) : outcome directive :=
  if PyStr.startswith response_text FUNCTION_CALL then
    '(func_name, params) ← parse_call response_text;
    mret (Call func_name params)
  else if PyStr.startswith response_text FINAL_ANSWER then
    mret (Final response_text)
  else
    mret (Malformed response_text).

(** ** Tool result normalisation (lines 336-342) *)

Definition result_text (result : tool_result) : outcome string :=
  match result with
  | ContentList [] => Raise IndexError
  | ContentList (TextContent t :: _) => Ok t
  | ContentList (OtherContent :: _) => Raise AttributeError
  | ContentOther repr => Ok repr
  | NoContent repr => Ok repr
  end.

Definition max_iterations : nat := 10.

(** ** A POSIX reading of [os.path], over a working directory and the set
    of paths that exist *)

Module Posix.

Definition endswith_slash (s : string) : bool :=
  match PyStr.last s with
  | Some c => Ascii.eqb c "/"
  | None => false
  end.

(** [posixpath.join(a, *p)] *)
Fixpoint join (a : string) (p : list string) : string :=
  match p with
  | [] => a
  | b :: rest =>
      let path :=
        if PyStr.startswith b "/" then b
        else if String.eqb a "" || endswith_slash a then a +:+ b
        else a +:+ "/" +:+ b in
      join path rest
  end.

(** One component of [posixpath.normpath]'s loop over [comps]. *)
Definition norm_step (initial_slashes : nat) (new_comps : list string)
    (comp : string) : list string :=
  if String.eqb comp "" || String.eqb comp "." then new_comps
  else if negb (String.eqb comp "..")
          || ((initial_slashes =? 0) && bool_decide (new_comps = []))
          || bool_decide (List.last new_comps "" = "..")
       then new_comps ++ [comp]
  else removelast new_comps.

Fixpoint slashes (n : nat) : string :=
  match n with
  | 0 => ""
  | S n' => String "/" (slashes n')
  end.

Definition normpath (path : string) : string :=
  if String.eqb path "" then "."
  else
    let initial_slashes :=
      if PyStr.startswith path "/" then
        if PyStr.startswith path "//" && negb (PyStr.startswith path "///")
        then 2 else 1
      else 0 in
    let comps := PyStr.split "/" path in
    let new_comps := fold_left (norm_step initial_slashes) comps [] in
    let path' := slashes initial_slashes +:+ PyStr.join "/" new_comps in
    if String.eqb path' "" then "." else path'.

Definition abspath (cwd path : string) : string :=
  normpath (if PyStr.startswith path "/" then path else join cwd [path]).

Definition exists_in (files : list string) (path : string) : bool :=
  negb (String.eqb path "") && bool_decide (path ∈ files).

Definition os_path (cwd : string) (files : list string) : OsPath := {|
  path_exists := exists_in files;
  path_join := join;
  path_abspath := abspath cwd
|}.

End Posix.

(** ** Scripted collaborators, for running the loop on concrete sessions *)

(** A model that answers turn [i] with line [i] of a script and fails once
    the script is exhausted. *)
Definition scripted_llm (lines : list string) : nat -> string -> option string :=
  fun i _ => lines !! i.

(** A model that answers every turn with the same line. *)
Definition constant_llm (line : string) : nat -> string -> option string :=
  fun _ _ => Some line.

(** A provider that answers call [i] with entry [i] of a script and raises
    once the script is exhausted. *)
Definition scripted_tool (results : list tool_result)
    : nat -> string -> gmap string pyval -> option tool_result :=
  fun i _ _ => results !! i.

(** A provider that answers every call with the same one-item text content. *)
Definition constant_tool (text : string)
    : nat -> string -> gmap string pyval -> option tool_result :=
  fun _ _ _ => Some (ContentList [TextContent text]).

(** A working directory with one saved picture, and a short preamble. *)
Definition demo_os_path : OsPath :=
  Posix.os_path "/home/agent" ["Assignment/visual.png"].

Definition demo_prompt : string :=
  "You are an agent that can control Microsoft Paint and send emails.".

(** ** Start-up: files and console inputs (lines 17-31, 134-153, 218-231) *)

(** The loops [for p in paths: if os.path.exists(p): ...; break]: the
    candidate they stop at, if any. *)
Fixpoint search_paths {os_path : OsPath} (paths : list string) : option string :=
  match paths with
  | [] => None
  | p :: rest => if path_exists p then Some p else search_paths rest
  end.

Definition possible_env_paths : list string := [".env"; "Assignment/.env"].

(** Lines 135-143; [cwd] is [os.getcwd()] and [script_dir] is the directory
    of the running script. *)
Definition possible_paths {os_path : OsPath} (cwd script_dir : string) : list string :=
  ["Session4/Assignment/paint_tools.py";
   "paint_tools.py";
   "./paint_tools.py";
   "Assignment/paint_tools.py";
   path_join cwd ["Session4/Assignment/paint_tools.py"];
   path_join cwd ["paint_tools.py"];
   path_join script_dir ["paint_tools.py"]].

(** Lines 145-155: the script the server is started from; [None] is
    [sys.exit(1)], taken when [path] is [None] or empty. *)
Definition find_paint_tools {os_path : OsPath} (cwd script_dir : string)
    : option string :=
  match search_paths (possible_paths cwd script_dir) with
  | Some path => if String.eqb path "" then None else Some path
  | None => None
  end.

(** Lines 219-222: what the agent works on, from the line typed at the
    first prompt. *)
Definition read_user_input (typed : string) : string :=
  if String.eqb typed "" then "Hello World" else typed.

(** Lines 225-231: the recipient, from the line typed at the second prompt
    and the [GMAIL_ADDRESS] variable, if set. *)
Definition read_recipient_email (typed : string) (gmail_address : option string)
    : string :=
  if String.eqb typed "" then default "" gmail_address else typed.

(** ** The tool listing of the prompt (lines 72-102) *)

(** One entry of [inputSchema['properties']]: a mapping, with the text of
    its ['type'] entry when it has one, or a value that has no [get]. *)
Inductive param_info : Type :=
  | ParamInfo (type : option string)
  | ParamOther.

(** [tool.inputSchema], by what lines 81-93 can do with it. *)
Inductive input_schema : Type :=
  | SchemaWithout                 (* ['properties' in params] is false *)
  | SchemaProperties (items : list (string * param_info))
                                  (* a properties mapping, in its order *)
  | SchemaOther.                  (* anything the block raises on *)

(** A tool as the listing reads it; [None] is a missing attribute. *)
Record tool : Type := {
  inputSchema : input_schema;
  description : option string;
  name : option string
}.

Definition param_detail (item : string * param_info) : outcome string :=
  match item.2 with
  | ParamInfo type => Ok (item.1 +:+ ": " +:+ default "unknown" type)
  | ParamOther => Raise AttributeError
  end.

(** The inner [for] loop: the first entry that raises ends it. *)
Fixpoint param_details (items : list (string * param_info)) : outcome (list string) :=
  match items with
  | [] => Ok []
  | item :: rest =>
      d ← param_detail item;
      ds ← param_details rest;
      mret (d :: ds)
  end.

(** The [try] block for the tool at 0-based position [i]. *)
Definition tool_desc (i : nat) (t : tool) : outcome string :=
  let desc := default "No description available" (description t) in
  let name := default ("tool_" +:+ PyStr.of_nat i) (name t) in
  params_str ←
    match inputSchema t with
    | SchemaOther => Raise AttributeError
    | SchemaProperties items =>
        details ← param_details items;
        mret (PyStr.join ", " details)
    | SchemaWithout => mret "no parameters"
    end;
  mret (PyStr.of_nat (i + 1) +:+ ". " +:+ name +:+ "(" +:+ params_str +:+ ") - "
        +:+ desc).

(** The outer [for i, tool in enumerate(tools)] loop, from position [i]. *)
Fixpoint tools_description (i : nat) (tools : list tool) : list string :=
  match tools with
  | [] => []
  | t :: rest =>
      match tool_desc i t with
      | Ok d => d
      | Raise _ => PyStr.of_nat (i + 1) +:+ ". Error processing tool"
      end :: tools_description (S i) rest
  end.

Definition format_tools_for_prompt (tools : list tool) : string :=
  match tools with
  | [] => "No tools available."
  | _ => PyStr.join PyStr.nl (tools_description 0 tools)
  end.

(** The text fields of a tool and of a schema, for statements about them. *)
Definition schema_texts (s : input_schema) : list string :=
  match s with
  | SchemaProperties items =>
      flat_map (fun item =>
                  item.1 :: match item.2 with
                            | ParamInfo (Some type) => [type]
                            | _ => []
                            end) items
  | _ => []
  end.

Definition tool_texts (t : tool) : list string :=
  option_list (name t) ++ option_list (description t) ++ schema_texts (inputSchema t).

(** ** More vocabulary for statements about the mapper and the trace *)

(** How many leading parameters a tool's branch asks for (the bounds of
    lines 263, 271, 274, 277 and 292). *)
Definition arity (func_name : string) : nat :=
  if String.eqb func_name "draw_rectangle" then 4
  else if String.eqb func_name "add_text_in_paint" then 1
  else if String.eqb func_name "save_paint_file" then 1
  else if String.eqb func_name "email_ascii_image" then 3
  else if String.eqb func_name "send_email_with_attachment" then 4
  else 0.

(** The keys of the dict display of each branch. *)
Definition argument_names (func_name : string) : list string :=
  if String.eqb func_name "ascii_exp_sum" then ["input_string"]
  else if String.eqb func_name "draw_rectangle" then ["x1"; "y1"; "x2"; "y2"]
  else if String.eqb func_name "add_text_in_paint" then ["text"]
  else if String.eqb func_name "save_paint_file" then ["filename"]
  else if String.eqb func_name "email_ascii_image" then
    ["to_address"; "subject"; "body"]
  else if String.eqb func_name "send_email_with_attachment" then
    ["to_address"; "subject"; "body"; "attachment_path"]
  else [].

(** A text of white space only. *)
Fixpoint blank_text (s : string) : bool :=
  match s with
  | EmptyString => true
  | String c s' => PyStr.is_space c && blank_text s'
  end.

(** What stripping means: [f] is trimmed and [raw] is [f] between two runs
    of white space. *)
Definition strips_to (raw f : string) : Prop :=
  PyStr.trimmed f /\
  exists l r, raw = l +:+ f +:+ r /\ blank_text l = true /\ blank_text r = true.

(** Decimal numerals as a reader writes them: an optional sign and the
    digits, most significant first. *)
Inductive sign : Type := Unsigned | Plus | Minus.

Record numeral : Type := { num_sign : sign; num_digits : list nat }.

Definition digit_char (d : nat) : ascii := ascii_of_nat (48 + d).

Fixpoint digit_string (ds : list nat) : string :=
  match ds with
  | [] => EmptyString
  | d :: rest => String (digit_char d) (digit_string rest)
  end.

Definition numeral_text (n : numeral) : string :=
  match num_sign n with
  | Unsigned => digit_string (num_digits n)
  | Plus => String "+" (digit_string (num_digits n))
  | Minus => String "-" (digit_string (num_digits n))
  end.

(** The number a digit sequence denotes, by the weight of each position. *)
Fixpoint positional (ds : list nat) : Z :=
  match ds with
  | [] => 0%Z
  | d :: rest => (Z.of_nat d * 10 ^ Z.of_nat (length rest) + positional rest)%Z
  end.

Definition numeral_value (n : numeral) : Z :=
  match num_sign n with
  | Minus => (- positional (num_digits n))%Z
  | _ => positional (num_digits n)
  end.

Definition decimal_digits (ds : list nat) : Prop := Forall (fun d => d < 10) ds.

(** A numeral [int] reads: at least one digit, and no more than the cap. *)
Definition readable (n : numeral) : Prop :=
  num_digits n <> [] /\ decimal_digits (num_digits n) /\
  length (num_digits n) <= PyInt.int_max_str_digits.

(** A numeral with more digits than the cap. *)
Definition over_long (n : numeral) : Prop :=
  decimal_digits (num_digits n) /\
  PyInt.int_max_str_digits < length (num_digits n).

(** A character that no integer literal can hold: not a digit, a sign, an
    underscore or a blank. *)
Definition foreign (c : ascii) : bool :=
  match PyInt.digit c with
  | Some _ => false
  | None =>
      negb (PyInt.is_blank c || Ascii.eqb c "_" || Ascii.eqb c "+"
            || Ascii.eqb c "-")
  end.

Fixpoint has_char (p : ascii -> bool) (s : string) : bool :=
  match s with
  | EmptyString => false
  | String c s' => p c || has_char p s'
  end.

(** Three ways of not being an integer literal. *)
Definition not_a_literal (p : string) : Prop :=
  p = "" \/ has_char foreign p = true \/
  exists n, p = numeral_text n /\ over_long n.

(** A coordinate of 4301 digits. *)
Definition long_numeral : numeral :=
  {| num_sign := Unsigned; num_digits := replicate 4301 1 |}.

Definition long_line : string :=
  "FUNCTION_CALL: draw_rectangle|" +:+ numeral_text long_numeral +:+ "|1|2|3".

(** The reports that end a session. *)
Definition is_terminal (e : event) : bool :=
  match e with
  | EvComplete _ | EvUnexpected _ | EvError _ _ | EvMaxIterations => true
  | _ => false
  end.

(** The tool name and returned text of every call of a trace that came
    back with a text; [pending] is the name of a call not yet answered. *)
Fixpoint recorded (pending : option string) (evs : list event)
    : list (string * string) :=
  match evs with
  | [] => []
  | EvCallTool f _ :: rest => recorded (Some f) rest
  | EvToolReturned r :: rest =>
      match pending, result_text r with
      | Some f, Ok t => (f, t) :: recorded None rest
      | _, _ => recorded None rest
      end
  | _ :: rest => recorded pending rest
  end.

(** A catalogue of three tools, the last with a parameter that is not a
    mapping. *)
Definition demo_tools : list tool :=
  [ {| inputSchema := SchemaProperties [("input_string", ParamInfo (Some "string"))];
       description := Some "Sum of exponentials of ASCII codes";
       name := Some "ascii_exp_sum" |};
    {| inputSchema := SchemaWithout;
       description := Some "Open Paint";
       name := Some "open_paint" |};
    {| inputSchema := SchemaProperties [("x1", ParamInfo (Some "integer")); ("y1", ParamOther)];
       description := None;
       name := Some "draw_rectangle" |} ].

(** ** The agent, over its collaborators *)

Section Agent.

Context {os_path : OsPath}.

(** Fixed for the session: the prompt preamble and the two console inputs,
    all set before the loop starts (lines 188-231). *)
Variable system_prompt : string.
Variable user_input : string.
Variable recipient_email : string.

(** The model backend at turn [i] on a prompt: the response text, or [None]
    when the generation step raises (time-out, backend error, no text). *)
Variable llm : nat -> string -> option string.

(** The tool provider at turn [i]: the call's result, or [None] when
    [session.call_tool] raises. *)
Variable call_tool : nat -> string -> gmap string pyval -> option tool_result.

(** *** Argument mapper (lines 255-328) *)

Definition default_subject : string := "ASCII Calculation Result".

Definition default_body : string :=
  "Here is the ASCII calculation result for '" +:+ user_input +:+ "'".

(** Lines 294-311: the probing of candidate directories. *)
Definition attachment_path (filename : string) : string :=
  if path_exists filename then filename
  else
    let assignment_path := path_join "Assignment" [filename] in
    if path_exists assignment_path then assignment_path
    else
      let session_path := path_join "Session4" ["Assignment"; filename] in
      if path_exists session_path then session_path
      else path_abspath filename.

Definition map_arguments (func_name : string) (params : list string)
    : outcome (gmap string pyval) :=
  if String.eqb func_name "ascii_exp_sum" then
    mret (dict [("input_string", VStr user_input)])
  else if String.eqb func_name "open_paint" then
    mret ∅
  else if String.eqb func_name "draw_rectangle" then
    if 4 <=? length params then
      x1 ← getitem params 0 ≫= py_int;
      y1 ← getitem params 1 ≫= py_int;
      x2 ← getitem params 2 ≫= py_int;
      y2 ← getitem params 3 ≫= py_int;
      mret (dict [("x1", VInt x1); ("y1", VInt y1);
                  ("x2", VInt x2); ("y2", VInt y2)])
    else mret ∅
  else if String.eqb func_name "add_text_in_paint" then
    if 1 <=? length params then
      text ← getitem params 0;
      mret (dict [("text", VStr text)])
    else mret ∅
  else if String.eqb func_name "save_paint_file" then
    if 1 <=? length params then
      filename ← getitem params 0;
      mret (dict [("filename", VStr filename)])
    else mret ∅
  else if String.eqb func_name "email_ascii_image" then
    if 3 <=? length params then
      subject ← getitem params 1;
      body ← getitem params 2;
      mret (dict [("to_address", VStr recipient_email);
                  ("subject", VStr subject); ("body", VStr body)])
    else
      mret (dict [("to_address", VStr recipient_email);
                  ("subject", VStr default_subject);
                  ("body", VStr default_body)])
  else if String.eqb func_name "send_email_with_attachment" then
    if 4 <=? length params then
      filename ← getitem params 3;
      let path := attachment_path filename in
      subject ← getitem params 1;
      body ← getitem params 2;
      mret (dict [("to_address", VStr recipient_email);
                  ("subject", VStr subject); ("body", VStr body);
                  ("attachment_path", VStr path)])
    else
      mret (dict [("to_address", VStr recipient_email);
                  ("subject", VStr default_subject);
                  ("body", VStr default_body);
                  ("attachment_path", VStr "paint_visualization.png")])
  else mret ∅.

(** *** Tool invoker (lines 333-342) *)

Definition invoke (i : nat) (func_name : string)
    (arguments : gmap string pyval) : act string :=
  emit (EvCallTool func_name arguments);;
  result ← lift (match call_tool i func_name arguments with
                 | Some r => Ok r
                 | None => Raise ToolError
                 end);
  emit (EvToolReturned result);;
  lift (result_text result).

(** *** Transcript and prompts (lines 234, 242, 345-351) *)

Definition initial_query : string :=
  "Calculate the ASCII exponential sum for " +:+ PyStr.dquote +:+ user_input
  +:+ PyStr.dquote +:+ ", visualize it in Paint, and email it to "
  +:+ recipient_email +:+ ".".

Definition transcript_entry (i : nat) (func_name result : string) : string :=
  "In iteration " +:+ PyStr.of_nat (i + 1) +:+ ", " +:+ func_name
  +:+ " returned: " +:+ result.

Definition next_query (entries : list string) : string :=
  "Previous steps and results:" +:+ PyStr.nl +:+ PyStr.join PyStr.nl entries
  +:+ PyStr.nl +:+ PyStr.nl +:+ "What should be the next step?".

Definition prompt_of (st : loop_state) : string :=
  system_prompt +:+ PyStr.nl +:+ PyStr.nl +:+ "Query: " +:+ query st.

(** *** One pass of the [while] body (lines 238-371) *)

(** The [try] block. *)
Definition turn (st : loop_state) : act control :=
  emit (EvGenerate (prompt_of st));;
  raw ← lift (match llm (iteration st) (prompt_of st) with
              | Some t => Ok t
              | None => Raise GenerationError
              end);
  let response_text := PyStr.strip raw in
  emit (EvResponse response_text);;
  d ← lift (parse_directive response_text);
  match d with
  | Call func_name params =>
      arguments ← lift (map_arguments func_name params);
      text ← invoke (iteration st) func_name arguments;
      let entries :=
        iteration_response st
          ++ [transcript_entry (iteration st) func_name text] in
      mret (Next {| iteration := iteration st;
                    iteration_response := entries;
                    query := next_query entries |})
  | Final text => emit (EvComplete text);; mret Stop
  | Malformed raw' => emit (EvUnexpected raw');; mret Stop
  end.

(** The whole body: banner, [try]/[except], then [iteration += 1] when the
    body did not [break]. *)
Definition loop_pass (st : loop_state) : list event * control :=
  match (emit (EvIteration (iteration st + 1));; turn st) with
  | (evs, Ok (Next st')) =>
      (evs, Next {| iteration := iteration st' + 1;
                    iteration_response := iteration_response st';
                    query := query st' |})
  | (evs, Ok Stop) => (evs, Stop)
  | (evs, Raise e) => (evs ++ [EvError (iteration st + 1) e], Stop)
  end.

(** *** The loop (line 237) and the notice after it (lines 373-375) *)

(** [None] only when [fuel] passes were not enough to leave the loop. *)
Fixpoint while_loop (fuel : nat) (st : loop_state)
    : option (list event * loop_state) :=
  if iteration st <? max_iterations then
    match fuel with
    | 0 => None
    | S fuel' =>
        match loop_pass st with
        | (evs, Next st') =>
            '(evs', st'') ← while_loop fuel' st';
            Some (evs ++ evs', st'')
        | (evs, Stop) => Some (evs, st)
        end
    end
  else Some ([], st).

Definition after_loop (st : loop_state) : list event :=
  if max_iterations <=? iteration st then [EvMaxIterations] else [].

(** The session from the top of the loop in state [st]. *)
Definition session_from (st : loop_state) : option (list event * loop_state) :=
  '(evs, st') ← while_loop (max_iterations - iteration st) st;
  Some (evs ++ after_loop st', st').

(** Lines 44-45 and 234: the globals as the module leaves them. *)
Definition initial_state : loop_state :=
  {| iteration := 0; iteration_response := []; query := initial_query |}.

Definition session : option (list event * loop_state) :=
  session_from initial_state.

(** The state at the top of the loop after [k] passes that all fell through
    to [iteration += 1], with the events so far; [None] when the session
    does not get that far. *)
Fixpoint passes (k : nat) (st : loop_state) : option (list event * loop_state) :=
  match k with
  | 0 => Some ([], st)
  | S k' =>
      if iteration st <? max_iterations then
        match loop_pass st with
        | (evs, Next st') =>
            '(evs', st'') ← passes k' st';
            Some (evs ++ evs', st'')
        | (_, Stop) => None
        end
      else None
  end.

(** *** Observations on a trace *)

Definition is_generate (e : event) : bool :=
  match e with EvGenerate _ => true | _ => false end.

Definition is_call (e : event) : bool :=
  match e with EvCallTool _ _ => true | _ => false end.

Definition is_banner (e : event) : bool :=
  match e with EvIteration _ => true | _ => false end.

(** The awaited [session.call_tool] came back with a result. *)
Definition is_returned (e : event) : bool :=
  match e with EvToolReturned _ => true | _ => false end.

(** A tool call is invoked successfully when it returned and its result
    yielded a text (spec section 4.3). *)
Definition is_invoked (e : event) : bool :=
  match e with
  | EvToolReturned r => match result_text r with Ok _ => true | Raise _ => false end
  | _ => false
  end.

Fixpoint count_of (p : event -> bool) (evs : list event) : nat :=
  match evs with
  | [] => 0
  | e :: evs' => (if p e then 1 else 0) + count_of p evs'
  end.

(** *** Vocabulary of the statements *)

(** The probing order of the attachment step in the spec's words: the
    first candidate that exists, else the fall-back. *)
Definition candidate_paths (filename : string) : list string :=
  [filename;
   path_join "Assignment" [filename];
   path_join "Session4" ["Assignment"; filename]].

Definition first_existing (candidates : list string) (fallback : string) : string :=
  match List.find path_exists candidates with
  | Some p => p
  | None => fallback
  end.

(** The tool names the mapper has a branch for. *)
Definition known_tools : list string :=
  ["ascii_exp_sum"; "open_paint"; "draw_rectangle"; "add_text_in_paint";
   "save_paint_file"; "email_ascii_image"; "send_email_with_attachment"].

(** The start of a pass that gets as far as answering with [text]. *)
Definition pass_prefix (st : loop_state) (text : string) : list event :=
  [EvIteration (iteration st + 1); EvGenerate (prompt_of st); EvResponse text].

(** ** Facts about the string primitives *)

Lemma startswith_app (s p : string) :
  PyStr.startswith s p = true -> exists r, s = p +:+ r.
Proof.
  unfold PyStr.startswith. revert s.
  induction p as [|c p IH]; intros [|d s] Hp; simpl in *;
    [by eexists | by eexists | done |].
  - destruct (ascii_dec c d) as [->|]; [|done].
    destruct (IH _ Hp) as [r ->]. by exists r.
Qed.

Lemma split_length (sep : ascii) (s : string) :
  length (PyStr.split sep s) = PyStr.count sep s + 1.
Proof.
  induction s as [|c s IH]; simpl; [done|].
  destruct (Ascii.eqb c sep); simpl; [by rewrite IH|].
  destruct (PyStr.split sep s); simpl in *; lia.
Qed.

Lemma split_no_sep (sep : ascii) (s : string) :
  PyStr.count sep s = 0 -> PyStr.split sep s = [s].
Proof.
  induction s as [|c s IH]; simpl; [done|].
  destruct (Ascii.eqb c sep); simpl; [done|].
  intros H. by rewrite IH.
Qed.

Lemma lstrip_head (s : string) (c : ascii) :
  PyStr.head (PyStr.lstrip s) = Some c -> PyStr.is_space c = false.
Proof.
  induction s as [|d s IH]; simpl; [done|].
  destruct (PyStr.is_space d) eqn:Hd; [done|].
  simpl. by intros [= <-].
Qed.

Lemma rstrip_head (s : string) (c : ascii) :
  PyStr.head (PyStr.rstrip s) = Some c -> PyStr.head s = Some c.
Proof.
  destruct s as [|d s]; simpl; [done|].
  destruct (PyStr.rstrip s); [destruct (PyStr.is_space d)|]; simpl; done.
Qed.

Lemma rstrip_last (s : string) (c : ascii) :
  PyStr.last (PyStr.rstrip s) = Some c -> PyStr.is_space c = false.
Proof.
  induction s as [|d s IH]; simpl; [done|].
  destruct (PyStr.rstrip s) as [|e r] eqn:Hr.
  - destruct (PyStr.is_space d) eqn:Hd; simpl; [done|]. by intros [= <-].
  - simpl. exact IH.
Qed.

Lemma strip_trimmed (s : string) : PyStr.trimmed (PyStr.strip s).
Proof.
  split; intros c Hc.
  - apply rstrip_head in Hc. by apply lstrip_head in Hc.
  - by apply rstrip_last in Hc.
Qed.

Lemma function_call_not_final (s : string) :
  PyStr.startswith s FINAL_ANSWER = true ->
  PyStr.startswith s FUNCTION_CALL = false.
Proof. intros [r ->]%startswith_app. reflexivity. Qed.

Lemma split1_function_call (payload : string) :
  PyStr.split1 ":" (FUNCTION_CALL +:+ payload) = ["FUNCTION_CALL"; payload].
Proof. reflexivity. Qed.

(** ** One pass, case by case *)

Ltac unfold_act :=
  unfold mbind, mret, act_bind, act_ret, outcome_bind, outcome_ret,
    emit, lift in *.

Lemma loop_pass_eq (st : loop_state) :
  loop_pass st =
  let n := iteration st + 1 in
  match llm (iteration st) (prompt_of st) with
  | None =>
      ([EvIteration n; EvGenerate (prompt_of st); EvError n GenerationError], Stop)
  | Some raw =>
      let text := PyStr.strip raw in
      match parse_directive text with
      | Raise e => (pass_prefix st text ++ [EvError n e], Stop)
      | Ok (Final t) => (pass_prefix st text ++ [EvComplete t], Stop)
      | Ok (Malformed t) => (pass_prefix st text ++ [EvUnexpected t], Stop)
      | Ok (Call f ps) =>
          match map_arguments f ps with
          | Raise e => (pass_prefix st text ++ [EvError n e], Stop)
          | Ok args =>
              match call_tool (iteration st) f args with
              | None =>
                  (pass_prefix st text ++ [EvCallTool f args; EvError n ToolError],
                   Stop)
              | Some r =>
                  match result_text r with
                  | Raise e =>
                      (pass_prefix st text
                         ++ [EvCallTool f args; EvToolReturned r; EvError n e],
                       Stop)
                  | Ok t =>
                      let entries :=
                        iteration_response st
                          ++ [transcript_entry (iteration st) f t] in
                      (pass_prefix st text ++ [EvCallTool f args; EvToolReturned r],
                       Next {| iteration := iteration st + 1;
                               iteration_response := entries;
                               query := next_query entries |})
                  end
              end
          end
      end
  end.
Proof.
  unfold loop_pass, turn, invoke, pass_prefix. unfold_act. cbv zeta.
  destruct (llm _ _) as [raw|]; [|reflexivity].
  destruct (parse_directive _) as [[f ps|t|t]|e]; try reflexivity.
  destruct (map_arguments f ps) as [args|e]; [|reflexivity].
  destruct (call_tool _ f args) as [r|]; [|reflexivity].
  destruct (result_text r) as [t|e]; reflexivity.
Qed.

(** A pass that falls through did exactly one generation request and one
    tool call, which returned a text, and appended one entry. *)
Lemma loop_pass_next (st st' : loop_state) (evs : list event) :
  loop_pass st = (evs, Next st') ->
  exists raw f ps args r t,
    llm (iteration st) (prompt_of st) = Some raw /\
    parse_directive (PyStr.strip raw) = Ok (Call f ps) /\
    map_arguments f ps = Ok args /\
    call_tool (iteration st) f args = Some r /\
    result_text r = Ok t /\
    evs = pass_prefix st (PyStr.strip raw) ++ [EvCallTool f args; EvToolReturned r] /\
    iteration st' = iteration st + 1 /\
    iteration_response st' =
      iteration_response st ++ [transcript_entry (iteration st) f t] /\
    query st' = next_query (iteration_response st').
Proof.
  rewrite loop_pass_eq. cbv zeta.
  destruct (llm _ _) as [raw|] eqn:Hllm; [|done].
  destruct (parse_directive _) as [[f ps|t|t]|e] eqn:Hd; try done.
  destruct (map_arguments f ps) as [args|e] eqn:Hm; [|done].
  destruct (call_tool _ f args) as [r|] eqn:Hc; [|done].
  destruct (result_text r) as [t|e] eqn:Hr; [|done].
  intros [= <- <-]. by exists raw, f, ps, args, r, t.
Qed.

Ltac stop_counts :=
  simpl; repeat split; try lia; try (intros H; simpl in H; intuition congruence).

Lemma count_of_app (p : event -> bool) (l1 l2 : list event) :
  count_of p (l1 ++ l2) = count_of p l1 + count_of p l2.
Proof. induction l1 as [|e l1 IH]; simpl; [done|]. rewrite IH. lia. Qed.

Lemma loop_pass_next_counts (st st' : loop_state) (evs : list event) :
  loop_pass st = (evs, Next st') ->
  count_of is_banner evs = 1 /\ count_of is_generate evs = 1 /\
  count_of is_call evs = 1 /\ count_of is_invoked evs = 1.
Proof.
  intros (raw & f & ps & args & r & t & _ & _ & _ & _ & Hr & -> & _)%loop_pass_next.
  simpl. by rewrite Hr.
Qed.

(** A pass that breaks did one generation request, at most one tool call,
    and no successful invocation; it leaves the globals as they were. *)
Lemma loop_pass_stop_counts (st : loop_state) (evs : list event) :
  loop_pass st = (evs, Stop) ->
  count_of is_banner evs = 1 /\ count_of is_generate evs = 1 /\
  count_of is_call evs <= 1 /\ count_of is_invoked evs = 0 /\
  ~ In EvMaxIterations evs.
Proof.
  rewrite loop_pass_eq. cbv zeta.
  destruct (llm _ _) as [raw|] eqn:Hllm.
  2: { intros [= <-]. stop_counts. }
  destruct (parse_directive _) as [[f ps|t|t]|e] eqn:Hd.
  2-4: intros [= <-]; stop_counts.
  destruct (map_arguments f ps) as [args|e] eqn:Hm.
  2: { intros [= <-]. stop_counts. }
  destruct (call_tool _ f args) as [r|] eqn:Hc.
  2: { intros [= <-]. stop_counts. }
  destruct (result_text r) as [t|e] eqn:Hr; [done|].
  intros [= <-]. simpl. rewrite Hr. stop_counts.
Qed.

(** ** The loop *)

Lemma after_loop_below (st : loop_state) :
  iteration st < max_iterations -> after_loop st = [].
Proof.
  intros H. unfold after_loop.
  destruct (Nat.leb_spec max_iterations (iteration st)); [lia|done].
Qed.

Lemma after_loop_reached (st : loop_state) :
  max_iterations <= iteration st -> after_loop st = [EvMaxIterations].
Proof.
  intros H. unfold after_loop.
  destruct (Nat.leb_spec max_iterations (iteration st)); [done|lia].
Qed.

Lemma while_loop_exit (fuel : nat) (st : loop_state) :
  max_iterations <= iteration st -> while_loop fuel st = Some ([], st).
Proof.
  intros H. destruct fuel; simpl;
    destruct (Nat.ltb_spec (iteration st) max_iterations); done || lia.
Qed.

Lemma while_loop_step (fuel : nat) (st : loop_state) :
  iteration st < max_iterations ->
  while_loop (S fuel) st =
    match loop_pass st with
    | (evs, Next st') =>
        '(evs', st'') ← while_loop fuel st';
        Some (evs ++ evs', st'')
    | (evs, Stop) => Some (evs, st)
    end.
Proof.
  intros H. simpl.
  destruct (Nat.ltb_spec (iteration st) max_iterations); [done|lia].
Qed.

(** Enough fuel always leaves the loop: the loop terminates. *)
Lemma while_loop_total (fuel : nat) (st : loop_state) :
  max_iterations - iteration st <= fuel -> is_Some (while_loop fuel st).
Proof.
  revert st. induction fuel as [|fuel IH]; intros st Hfuel.
  - rewrite while_loop_exit; [done|lia].
  - destruct (Nat.lt_ge_cases (iteration st) max_iterations) as [Hlt|Hge].
    + rewrite while_loop_step by done.
      destruct (loop_pass st) as [evs [st'|]] eqn:Hpass; [|done].
      apply loop_pass_next in Hpass
        as (? & ? & ? & ? & ? & ? & _ & _ & _ & _ & _ & _ & Hit & _).
      destruct (IH st') as [[evs' st''] ->]; [lia|done].
    + by rewrite while_loop_exit.
Qed.

Lemma session_from_done (st : loop_state) :
  max_iterations <= iteration st ->
  session_from st = Some ([EvMaxIterations], st).
Proof.
  intros H. unfold session_from. rewrite while_loop_exit by done.
  simpl. by rewrite after_loop_reached.
Qed.

Lemma session_from_step (st : loop_state) :
  iteration st < max_iterations ->
  session_from st =
    match loop_pass st with
    | (evs, Next st') =>
        '(evs', st'') ← session_from st';
        Some (evs ++ evs', st'')
    | (evs, Stop) => Some (evs, st)
    end.
Proof.
  intros H. unfold session_from.
  replace (max_iterations - iteration st)
    with (S (max_iterations - (iteration st + 1))) by lia.
  rewrite while_loop_step by done.
  destruct (loop_pass st) as [evs [st'|]] eqn:Hpass.
  - apply loop_pass_next in Hpass
      as (? & ? & ? & ? & ? & ? & _ & _ & _ & _ & _ & _ & Hit & _).
    rewrite Hit.
    destruct (while_loop _ st') as [[evs' st'']|]; simpl; [|done].
    by rewrite app_assoc.
  - simpl. by rewrite after_loop_below, app_nil_r.
Qed.

(** The session always ends. *)
Lemma session_from_total (st : loop_state) : is_Some (session_from st).
Proof.
  unfold session_from.
  destruct (while_loop_total (max_iterations - iteration st) st)
    as [[evs st'] ->]; done.
Qed.

(** A session that has made [k] full passes continues from where they
    left it. *)
Lemma session_from_passes (k : nat) (st st' : loop_state) (evs : list event) :
  passes k st = Some (evs, st') ->
  session_from st = ('(evs', st'') ← session_from st'; Some (evs ++ evs', st'')).
Proof.
  revert st evs. induction k as [|k IH]; intros st evs; simpl.
  - intros [= <- <-]. by destruct (session_from st) as [[??]|].
  - destruct (Nat.ltb_spec (iteration st) max_iterations) as [Hlt|]; [|done].
    rewrite session_from_step by done.
    destruct (loop_pass st) as [evs1 [st1|]]; [|done].
    destruct (passes k st1) as [[evs2 st2]|] eqn:Hk; [|done].
    intros [= <- <-]. rewrite (IH _ _ Hk).
    destruct (session_from st2) as [[evs3 st3]|]; simpl; [|done].
    by rewrite app_assoc.
Qed.

(** What [k] full passes leave behind. *)
Lemma passes_inv (k : nat) (st st' : loop_state) (evs : list event) :
  passes k st = Some (evs, st') ->
  iteration st' = iteration st + k /\
  (k = 0 \/ iteration st' <= max_iterations) /\
  (exists added, iteration_response st' = iteration_response st ++ added /\
                 length added = k) /\
  count_of is_banner evs = k /\ count_of is_generate evs = k /\
  count_of is_call evs = k /\ count_of is_invoked evs = k /\
  ~ In EvMaxIterations evs.
Proof.
  revert st evs. induction k as [|k IH]; intros st evs; simpl.
  - intros [= <- <-]. repeat split; auto with lia.
    exists []. by rewrite app_nil_r.
  - destruct (Nat.ltb_spec (iteration st) max_iterations) as [Hlt|]; [|done].
    destruct (loop_pass st) as [evs1 [st1|]] eqn:Hpass; [|done].
    destruct (passes k st1) as [[evs2 st2]|] eqn:Hk; [|done].
    intros [= <- <-].
    destruct (IH _ _ Hk) as (Hit & Hmax & (added & Hadd & Hlen) & Hb & Hg & Hc & Hi & Hn).
    destruct (loop_pass_next_counts _ _ _ Hpass) as (Hb1 & Hg1 & Hc1 & Hi1).
    apply loop_pass_next in Hpass
      as (raw & f & ps & args & r & t & _ & _ & _ & _ & _ & Hev & Hit1 & Hresp & _).
    rewrite !count_of_app, Hb, Hg, Hc, Hi, Hb1, Hg1, Hc1, Hi1.
    repeat split; try lia.
    + exists (transcript_entry (iteration st) f t :: added).
      rewrite Hadd, Hresp, <- app_assoc. simpl. auto.
    + rewrite in_app_iff. intros [Hin|Hin]; [|done].
      rewrite Hev in Hin. unfold pass_prefix in Hin. simpl in Hin.
      intuition congruence.
Qed.

(** Every session is some number of full passes followed either by the
    exit of the loop at the cap, or by one pass that breaks. *)
Lemma session_from_decompose (st stf : loop_state) (evs : list event) :
  session_from st = Some (evs, stf) ->
  exists k evs0 tail,
    passes k st = Some (evs0, stf) /\ evs = evs0 ++ tail /\
    ((max_iterations <= iteration stf /\ tail = [EvMaxIterations]) \/
     (iteration stf < max_iterations /\ loop_pass stf = (tail, Stop))).
Proof.
  remember (max_iterations - iteration st) as n eqn:Hn.
  revert st evs Hn. induction n as [|n IH]; intros st evs Hn.
  - rewrite session_from_done by lia. intros [= <- <-].
    exists 0, [], [EvMaxIterations]. repeat split. left. split; [lia|done].
  - rewrite session_from_step by lia.
    destruct (loop_pass st) as [evs1 [st1|]] eqn:Hpass.
    + destruct (session_from st1) as [[evs2 st2]|] eqn:Hs; [|done].
      simpl. intros [= <- <-].
      pose proof Hpass as Hnext. apply loop_pass_next in Hnext
        as (? & ? & ? & ? & ? & ? & _ & _ & _ & _ & _ & _ & Hit & _).
      destruct (IH st1 evs2) as (k & evs0 & tail & Hk & -> & Htail); [lia|done|].
      exists (S k), (evs1 ++ evs0), tail. simpl.
      destruct (Nat.ltb_spec (iteration st) max_iterations); [|lia].
      rewrite Hpass, Hk. simpl. by rewrite app_assoc.
    + intros [= <- <-]. exists 0, [], evs1. repeat split.
      right. split; [lia|done].
Qed.

(** Calls that came back: one per full pass, at most one in a pass that
    breaks (a result from which no text can be taken). *)
Lemma loop_pass_returned (st : loop_state) (evs : list event) (c : control) :
  loop_pass st = (evs, c) ->
  count_of is_returned evs <= 1 /\
  (forall st', c = Next st' -> count_of is_returned evs = 1).
Proof.
  rewrite loop_pass_eq. cbv zeta.
  destruct (llm _ _) as [raw|]; [|intros [= <- <-]; simpl; split; [lia|done]].
  destruct (parse_directive _) as [[f ps|t|t]|e];
    try (intros [= <- <-]; simpl; split; [lia|done]).
  destruct (map_arguments f ps) as [args|e];
    [|intros [= <- <-]; simpl; split; [lia|done]].
  destruct (call_tool _ f args) as [r|];
    [|intros [= <- <-]; simpl; split; [lia|done]].
  destruct (result_text r) as [t|e]; intros [= <- <-]; simpl; split; (lia || done).
Qed.

Lemma passes_returned (k : nat) (st st' : loop_state) (evs : list event) :
  passes k st = Some (evs, st') -> count_of is_returned evs = k.
Proof.
  revert st evs. induction k as [|k IH]; intros st evs; simpl.
  - by intros [= <- <-].
  - destruct (iteration st <? max_iterations); [|done].
    destruct (loop_pass st) as [evs1 [st1|]] eqn:Hpass; [|done].
    destruct (passes k st1) as [[evs2 st2]|] eqn:Hk; [|done].
    intros [= <- <-]. rewrite count_of_app, (IH _ _ Hk).
    apply loop_pass_returned in Hpass as [_ Hone]. by rewrite (Hone st1).
Qed.

(** Every tool call of a session carries arguments the mapper produced
    for that tool. *)
Lemma loop_pass_calls (st : loop_state) (evs : list event) (c : control)
    (f : string) (args : gmap string pyval) :
  loop_pass st = (evs, c) ->
  In (EvCallTool f args) evs ->
  exists ps, map_arguments f ps = Ok args.
Proof.
  rewrite loop_pass_eq. cbv zeta. unfold pass_prefix.
  destruct (llm _ _) as [raw|].
  2: { intros [= <- <-]. simpl. intuition congruence. }
  destruct (parse_directive _) as [[g ps|t|t]|e].
  2-4: intros [= <- <-]; simpl; intuition congruence.
  destruct (map_arguments g ps) as [args'|e] eqn:Hm.
  2: { intros [= <- <-]. simpl. intuition congruence. }
  assert (Hin : forall tail,
      ~ In (EvCallTool f args) tail ->
      In (EvCallTool f args)
         ([EvIteration (iteration st + 1); EvGenerate (prompt_of st);
           EvResponse (PyStr.strip raw)] ++ EvCallTool g args' :: tail) ->
      exists ps, map_arguments f ps = Ok args).
  { intros tail Htail. simpl. intros [?|[?|[?|[Heq|?]]]]; try done.
    injection Heq as <- <-. by exists ps. }
  destruct (call_tool _ g args') as [r|].
  2: { intros [= <- <-]. apply Hin. simpl. intuition congruence. }
  destruct (result_text r) as [t|e];
    intros [= <- <-]; apply Hin; simpl; intuition congruence.
Qed.

Lemma passes_calls (k : nat) (st st' : loop_state) (evs : list event)
    (f : string) (args : gmap string pyval) :
  passes k st = Some (evs, st') ->
  In (EvCallTool f args) evs ->
  exists ps, map_arguments f ps = Ok args.
Proof.
  revert st evs. induction k as [|k IH]; intros st evs; simpl.
  - by intros [= <- <-].
  - destruct (iteration st <? max_iterations); [|done].
    destruct (loop_pass st) as [evs1 [st1|]] eqn:Hpass; [|done].
    destruct (passes k st1) as [[evs2 st2]|] eqn:Hk; [|done].
    intros [= <- <-]. rewrite in_app_iff. intros [Hin|Hin].
    + by eapply loop_pass_calls.
    + by eapply IH.
Qed.

Lemma session_calls (st stf : loop_state) (evs : list event)
    (f : string) (args : gmap string pyval) :
  session_from st = Some (evs, stf) ->
  In (EvCallTool f args) evs ->
  exists ps, map_arguments f ps = Ok args.
Proof.
  intros (k & evs0 & tail & Hk & -> & Htail)%session_from_decompose.
  rewrite in_app_iff. intros [Hin|Hin].
  - by eapply passes_calls.
  - destruct Htail as [[_ ->]|[_ Hstop]].
    + simpl in Hin. intuition congruence.
    + by eapply loop_pass_calls.
Qed.

(** ** Claims on the loop *)

(** C7. At every point of a session (the top of each pass and the end of
    the session) the transcript is as long as the number of tool calls
    invoked successfully so far and as the iteration counter; every full
    pass extends the transcript at its end by exactly one entry, so earlier
    entries are never removed or reordered.  At the top of a pass every
    call made so far has also returned; at the end of the session at most
    one call has returned without being recorded, the one whose result
    gave no text and ended the session. *)
Theorem transcript_invariant :
  (forall k evs st,
      passes k initial_state = Some (evs, st) ->
      length (iteration_response st) = count_of is_invoked evs /\
      iteration st = length (iteration_response st) /\
      count_of is_returned evs = length (iteration_response st)) /\
  (forall evs st,
      session = Some (evs, st) ->
      length (iteration_response st) = count_of is_invoked evs /\
      iteration st = length (iteration_response st) /\
      length (iteration_response st) <= count_of is_returned evs
        <= length (iteration_response st) + 1) /\
  (forall st evs st',
      iteration st < max_iterations ->
      loop_pass st = (evs, Next st') ->
      count_of is_invoked evs = 1 /\
      exists entry, iteration_response st' = iteration_response st ++ [entry]) /\
  (forall st evs,
      loop_pass st = (evs, Stop) -> count_of is_invoked evs = 0) /\
  (forall k evs st j evs' st',
      passes k initial_state = Some (evs, st) ->
      passes j st = Some (evs', st') ->
      iteration_response st `prefix_of` iteration_response st') /\
  (forall k evs st evsf stf,
      passes k initial_state = Some (evs, st) ->
      session = Some (evsf, stf) ->
      iteration_response st `prefix_of` iteration_response stf).
Proof.
  assert (Hpoint : forall k evs st,
      passes k initial_state = Some (evs, st) ->
      length (iteration_response st) = count_of is_invoked evs /\
      iteration st = length (iteration_response st) /\
      count_of is_returned evs = length (iteration_response st)).
  { intros k evs st Hk. pose proof (passes_returned _ _ _ _ Hk) as Hret.
    apply passes_inv in Hk
      as (Hit & _ & (added & Hadd & Hlen) & _ & _ & _ & Hinv & _).
    simpl in *. rewrite Hadd. lia. }
  split; [exact Hpoint|]. split; [|split; [|split; [|split]]].
  - intros evs st (k & evs0 & tail & Hk & -> & Htail)%session_from_decompose.
    destruct (Hpoint _ _ _ Hk) as (Hlen & Hit & Hret).
    rewrite !count_of_app. destruct Htail as [[_ ->]|[_ Hstop]].
    + simpl. lia.
    + pose proof (loop_pass_returned _ _ _ Hstop) as [Hle _].
      apply loop_pass_stop_counts in Hstop as (_ & _ & _ & -> & _). lia.
  - intros st evs st' _ Hpass. split.
    + by apply loop_pass_next_counts in Hpass as (_ & _ & _ & ?).
    + apply loop_pass_next in Hpass
        as (? & f & ? & ? & ? & t & _ & _ & _ & _ & _ & _ & _ & Hresp & _).
      by eexists.
  - by intros st evs (_ & _ & _ & ? & _)%loop_pass_stop_counts.
  - intros k evs st j evs' st' _ (_ & _ & (added & -> & _) & _)%passes_inv.
    by exists added.
  - intros k evs st evsf stf Hk. unfold session.
    rewrite (session_from_passes _ _ _ _ Hk).
    destruct (session_from st) as [[evs1 st1]|] eqn:Hs; [|done].
    simpl. intros [= <- <-].
    apply session_from_decompose in Hs as (j & evs0 & tail & Hj & _).
    apply passes_inv in Hj as (_ & _ & (added & -> & _) & _).
    by exists added.
Qed.

(** A pass that breaks after [k] full passes ends the session there. *)
Lemma session_break (k : nat) (evs0 tail : list event) (st : loop_state) :
  passes k initial_state = Some (evs0, st) ->
  iteration st < max_iterations ->
  loop_pass st = (tail, Stop) ->
  session = Some (evs0 ++ tail, st).
Proof.
  intros Hk Hlt Hpass. unfold session.
  rewrite (session_from_passes _ _ _ _ Hk), session_from_step by done.
  by rewrite Hpass.
Qed.

(** The events of a pass that is reached are part of the session's trace. *)
Lemma session_pass (k : nat) (evs0 evs1 : list event) (st : loop_state) (c : control) :
  passes k initial_state = Some (evs0, st) ->
  iteration st < max_iterations ->
  loop_pass st = (evs1, c) ->
  exists rest stf, session = Some (evs0 ++ evs1 ++ rest, stf).
Proof.
  intros Hk Hlt Hpass. unfold session.
  rewrite (session_from_passes _ _ _ _ Hk), session_from_step by done.
  rewrite Hpass. destruct c as [st'|].
  - destruct (session_from_total st') as [[evs2 st2] ->]. simpl.
    by exists evs2, st2.
  - exists [], st. simpl. by rewrite app_nil_r.
Qed.

(** C2. The loop makes at most [max_iterations] (ten) passes, so at most
    that many generation requests and tool calls; the counter goes up by
    one per accumulated call turn; the "max iterations" notice is printed
    exactly when the counter has reached the cap; and after
    [max_iterations] accumulations the session ends with that notice and
    with no further generation request. *)
Theorem iteration_bound :
  max_iterations = 10 /\
  (exists evs st,
      session = Some (evs, st) /\
      count_of is_banner evs <= max_iterations /\
      count_of is_generate evs <= max_iterations /\
      count_of is_call evs <= max_iterations /\
      iteration st <= max_iterations /\
      iteration st = count_of is_invoked evs /\
      (In EvMaxIterations evs <-> iteration st = max_iterations)) /\
  (forall k evs st,
      passes k initial_state = Some (evs, st) ->
      iteration st = k /\ k <= max_iterations) /\
  (forall evs st, passes (S max_iterations) initial_state <> Some (evs, st)) /\
  (forall evs st,
      passes max_iterations initial_state = Some (evs, st) ->
      session = Some (evs ++ [EvMaxIterations], st) /\
      count_of is_generate evs = max_iterations).
Proof.
  pose proof (eq_refl : max_iterations = 10) as Hmax.
  assert (Hk : forall k evs st,
      passes k initial_state = Some (evs, st) ->
      iteration st = k /\ k <= max_iterations).
  { intros k evs st (Hit & Hle & _)%passes_inv. simpl in *. lia. }
  split; [done|]. split; [|split; [exact Hk|split]].
  - destruct (session_from_total initial_state) as [[evs st] Hs].
    exists evs, st. split; [exact Hs|].
    apply session_from_decompose in Hs as (k & evs0 & tail & Hp & -> & Htail).
    destruct (Hk _ _ _ Hp) as [Hit Hle].
    apply passes_inv in Hp as (_ & _ & _ & Hb & Hg & Hc & Hi & Hn).
    rewrite !count_of_app, in_app_iff, Hb, Hg, Hc, Hi.
    destruct Htail as [[Hge ->]|[Hlt Hstop]].
    + simpl. repeat split; try lia. intros _. by right; left.
    + apply loop_pass_stop_counts in Hstop as (-> & -> & ? & -> & Hn').
      repeat split; try lia. intros [?|?]; done.
  - intros evs st [? ?]%Hk. lia.
  - intros evs st Hp. destruct (Hk _ _ _ Hp) as [Hit _].
    split.
    + unfold session. rewrite (session_from_passes _ _ _ _ Hp).
      rewrite session_from_done by lia. done.
    + by apply passes_inv in Hp as (_ & _ & _ & _ & ? & _).
Qed.

(** C4. A response that, once stripped, starts with neither marker is
    malformed: the pass reports it and breaks, and the session ends there
    with no tool call in that turn, none later, and no new generation
    request. *)
Theorem malformed_aborts (k : nat) (evs0 : list event) (st : loop_state)
    (raw : string) :
  passes k initial_state = Some (evs0, st) ->
  iteration st < max_iterations ->
  llm (iteration st) (prompt_of st) = Some raw ->
  PyStr.startswith (PyStr.strip raw) FUNCTION_CALL = false ->
  PyStr.startswith (PyStr.strip raw) FINAL_ANSWER = false ->
  parse_directive (PyStr.strip raw) = Ok (Malformed (PyStr.strip raw)) /\
  exists evs,
    session = Some (evs, st) /\
    evs = evs0 ++ pass_prefix st (PyStr.strip raw)
            ++ [EvUnexpected (PyStr.strip raw)] /\
    count_of is_call evs = count_of is_call evs0 /\
    count_of is_generate evs = count_of is_generate evs0 + 1.
Proof.
  intros Hk Hlt Hllm Hcall Hfinal.
  assert (Hd : parse_directive (PyStr.strip raw) = Ok (Malformed (PyStr.strip raw))).
  { unfold parse_directive. by rewrite Hcall, Hfinal. }
  split; [exact Hd|]. eexists. split; [|split; [reflexivity|]].
  - eapply session_break; [exact Hk|exact Hlt|].
    rewrite loop_pass_eq, Hllm. cbv zeta. by rewrite Hd.
  - rewrite !count_of_app. simpl. lia.
Qed.

(** C6. A response that, once stripped, starts with the final-answer
    marker ends the session in that same pass: the completion is printed,
    the loop breaks, and no tool call and no generation request follows. *)
Theorem final_answer_finishes (k : nat) (evs0 : list event) (st : loop_state)
    (raw : string) :
  passes k initial_state = Some (evs0, st) ->
  iteration st < max_iterations ->
  llm (iteration st) (prompt_of st) = Some raw ->
  PyStr.startswith (PyStr.strip raw) FINAL_ANSWER = true ->
  parse_directive (PyStr.strip raw) = Ok (Final (PyStr.strip raw)) /\
  exists evs,
    session = Some (evs, st) /\
    evs = evs0 ++ pass_prefix st (PyStr.strip raw)
            ++ [EvComplete (PyStr.strip raw)] /\
    count_of is_call evs = count_of is_call evs0 /\
    count_of is_generate evs = count_of is_generate evs0 + 1 /\
    ~ In EvMaxIterations evs.
Proof.
  intros Hk Hlt Hllm Hfinal.
  assert (Hd : parse_directive (PyStr.strip raw) = Ok (Final (PyStr.strip raw))).
  { unfold parse_directive.
    by rewrite (function_call_not_final _ Hfinal), Hfinal. }
  split; [exact Hd|]. eexists. split; [|split; [reflexivity|]].
  - eapply session_break; [exact Hk|exact Hlt|].
    rewrite loop_pass_eq, Hllm. cbv zeta. by rewrite Hd.
  - rewrite !count_of_app. simpl. repeat split; try lia.
    rewrite !in_app_iff. apply passes_inv in Hk as (_ & _ & _ & _ & _ & _ & _ & Hn).
    simpl. intuition congruence.
Qed.

(** ** What [int] reads *)

Lemma digit_char_facts (d : nat) :
  d < 10 ->
  PyInt.digit (digit_char d) = Some (Z.of_nat d) /\
  PyInt.is_blank (digit_char d) = false /\
  Ascii.eqb (digit_char d) "_" = false /\
  Ascii.eqb (digit_char d) "+" = false /\
  Ascii.eqb (digit_char d) "-" = false.
Proof.
  intros Hd. do 10 (destruct d as [|d]; [by vm_compute|]). lia.
Qed.

Lemma digits_positional (ds : list nat) (b : bool) (acc : Z) :
  decimal_digits ds ->
  ds <> [] \/ b = true ->
  PyInt.digits b acc (digit_string ds)
  = Some (acc * 10 ^ Z.of_nat (length ds) + positional ds)%Z.
Proof.
  intros Hds. revert b acc.
  induction Hds as [|d ds Hd _ IH]; intros b acc Hne.
  - destruct Hne as [?| ->]; [done|]. simpl. f_equal. lia.
  - destruct (digit_char_facts d Hd) as (Hdigit & _ & Hus & _).
    cbn [digit_string PyInt.digits]. rewrite Hus, Hdigit, IH by auto.
    f_equal. cbn [length positional].
    rewrite Nat2Z.inj_succ, Z.pow_succ_r by lia. ring.
Qed.

Lemma digit_string_count (ds : list nat) :
  decimal_digits ds -> PyInt.digit_count (digit_string ds) = length ds.
Proof.
  induction 1 as [|d ds Hd _ IH]; [done|].
  destruct (digit_char_facts d Hd) as (Hdigit & _).
  cbn [digit_string PyInt.digit_count length]. by rewrite Hdigit, IH.
Qed.

Lemma digit_string_blank (ds : list nat) :
  decimal_digits ds -> has_char PyInt.is_blank (digit_string ds) = false.
Proof.
  induction 1 as [|d ds Hd _ IH]; [done|].
  destruct (digit_char_facts d Hd) as (_ & Hblank & _).
  cbn [digit_string has_char]. by rewrite Hblank, IH.
Qed.

Lemma lskip_unblank (s : string) :
  has_char PyInt.is_blank s = false -> PyInt.lskip s = s.
Proof.
  destruct s as [|c s]; [done|]. simpl.
  by intros [-> _]%orb_false_iff.
Qed.

Lemma rskip_unblank (s : string) :
  has_char PyInt.is_blank s = false -> PyInt.rskip s = s.
Proof.
  induction s as [|c s IH]; [done|]. simpl.
  intros [Hc Hs]%orb_false_iff. rewrite (IH Hs), Hc. by destruct s.
Qed.

Lemma numeral_text_blank (n : numeral) :
  decimal_digits (num_digits n) ->
  has_char PyInt.is_blank (numeral_text n) = false.
Proof.
  intros Hds%digit_string_blank. unfold numeral_text.
  by destruct (num_sign n); simpl; rewrite ?Hds.
Qed.

Lemma numeral_text_count (n : numeral) :
  decimal_digits (num_digits n) ->
  PyInt.digit_count (numeral_text n) = length (num_digits n).
Proof.
  intros Hds%digit_string_count. unfold numeral_text.
  by destruct (num_sign n); simpl; rewrite ?Hds.
Qed.

(** A numeral within the cap is read as the number it denotes. *)
Lemma parse_numeral (n : numeral) :
  readable n -> PyInt.parse (numeral_text n) = Some (numeral_value n).
Proof.
  intros (Hne & Hds & Hlen). unfold PyInt.parse. cbv zeta.
  rewrite lskip_unblank, rskip_unblank by by apply numeral_text_blank.
  rewrite numeral_text_count by done.
  destruct (Nat.ltb_spec PyInt.int_max_str_digits (length (num_digits n)));
    [lia|].
  unfold numeral_text, numeral_value.
  destruct (num_sign n); cbn [PyInt.literal_value].
  - destruct (num_digits n) as [|d ds] eqn:Heq; [done|].
    apply Forall_cons in Hds as [Hd Hds'].
    destruct (digit_char_facts d Hd) as (_ & _ & _ & Hplus & Hminus).
    cbn [digit_string PyInt.literal_value]. rewrite Hplus, Hminus.
    change (String (digit_char d) (digit_string ds)) with (digit_string (d :: ds)).
    rewrite digits_positional; [f_equal; lia|by constructor|by left].
  - change (Ascii.eqb "+" "+") with true. cbv iota.
    rewrite digits_positional by auto. f_equal; lia.
  - change (Ascii.eqb "-" "+") with false. change (Ascii.eqb "-" "-") with true.
    cbv iota. rewrite digits_positional by auto. simpl. f_equal; lia.
Qed.

(** A numeral with more digits than the cap is refused. *)
Lemma parse_over_long (n : numeral) :
  over_long n -> PyInt.parse (numeral_text n) = None.
Proof.
  intros (Hds & Hlen). unfold PyInt.parse. cbv zeta.
  rewrite lskip_unblank, rskip_unblank by by apply numeral_text_blank.
  rewrite numeral_text_count by done.
  by destruct (Nat.ltb_spec PyInt.int_max_str_digits (length (num_digits n)));
    [|lia].
Qed.

Lemma blank_not_foreign (c : ascii) : PyInt.is_blank c = true -> foreign c = false.
Proof. unfold foreign. intros ->. by destruct (PyInt.digit c). Qed.

Lemma lskip_foreign (s : string) :
  has_char foreign (PyInt.lskip s) = has_char foreign s.
Proof.
  induction s as [|c s IH]; [done|]. simpl.
  destruct (PyInt.is_blank c) eqn:Hc; [|done].
  by rewrite (blank_not_foreign c Hc).
Qed.

Lemma rskip_foreign (s : string) :
  has_char foreign (PyInt.rskip s) = has_char foreign s.
Proof.
  induction s as [|c s IH]; [done|]. simpl.
  destruct (PyInt.rskip s) as [|d r].
  - simpl in IH. rewrite <- IH.
    destruct (PyInt.is_blank c) eqn:Hc; [|done].
    by rewrite (blank_not_foreign c Hc).
  - simpl in *. by rewrite IH.
Qed.

Lemma digits_foreign (s : string) (b : bool) (acc : Z) :
  has_char foreign s = true -> PyInt.digits b acc s = None.
Proof.
  revert b acc. induction s as [|c s IH]; intros b acc; [done|]. simpl.
  unfold foreign at 1.
  destruct (Ascii.eqb c "_") eqn:Hus.
  - destruct (PyInt.digit c); rewrite ?orb_true_r; simpl;
      intros Hs; destruct b; auto.
  - destruct (PyInt.digit c); [|done]. simpl. apply IH.
Qed.

Lemma literal_value_foreign (t : string) :
  has_char foreign t = true -> PyInt.literal_value t = None.
Proof.
  destruct t as [|c r]; [done|]. intros Ht. cbn [PyInt.literal_value].
  assert (Hsign : Ascii.eqb c "+" = true \/ Ascii.eqb c "-" = true ->
                  has_char foreign r = true).
  { simpl in Ht. unfold foreign at 1 in Ht.
    intros [Hc|Hc]; rewrite Hc, ?orb_true_r in Ht;
      by destruct (PyInt.digit c). }
  destruct (Ascii.eqb c "+") eqn:Hplus.
  { apply digits_foreign. auto. }
  destruct (Ascii.eqb c "-") eqn:Hminus.
  { rewrite digits_foreign by auto. done. }
  by apply digits_foreign.
Qed.

(** A text holding a character that is no digit, sign, underscore or blank
    is refused. *)
Lemma parse_foreign (s : string) :
  has_char foreign s = true -> PyInt.parse s = None.
Proof.
  intros Hs. unfold PyInt.parse. cbv zeta.
  rewrite literal_value_foreign; [by destruct (_ <? _)|].
  by rewrite rskip_foreign, lskip_foreign.
Qed.

Lemma parse_not_a_literal (p : string) :
  not_a_literal p -> PyInt.parse p = None.
Proof.
  intros [-> | [Hf | (n & -> & Hn)]].
  - reflexivity.
  - by apply parse_foreign.
  - by apply parse_over_long.
Qed.

(** ** Claims on the parser and the mapper *)

Lemma string_cons_append (c : ascii) (s t : string) :
  String c s +:+ t = String c (s +:+ t).
Proof. reflexivity. Qed.

Lemma append_empty_r (s : string) : s +:+ "" = s.
Proof.
  induction s as [|c s IH]; [done|]. by rewrite string_cons_append, IH.
Qed.

(** Joining the fields of a split gives the text back. *)
Lemma join_split (sep : ascii) (s : string) :
  PyStr.join (String sep "") (PyStr.split sep s) = s.
Proof.
  induction s as [|c s IH]; [done|]. simpl.
  destruct (Ascii.eqb_spec c sep) as [->|Hne].
  - destruct (PyStr.split sep s) as [|f fs] eqn:Hsplit.
    + pose proof (split_length sep s) as Hlen. rewrite Hsplit in Hlen.
      simpl in Hlen. lia.
    + change (PyStr.join (String sep "") ("" :: f :: fs))
        with (String sep (PyStr.join (String sep "") (f :: fs))).
      by rewrite IH.
  - destruct (PyStr.split sep s) as [|f fs] eqn:Hsplit.
    + pose proof (split_length sep s) as Hlen. rewrite Hsplit in Hlen.
      simpl in Hlen. lia.
    + destruct fs as [|g fs].
      * simpl in *. by rewrite IH.
      * change (PyStr.join (String sep "") (String c f :: g :: fs))
          with (String c (PyStr.join (String sep "") (f :: g :: fs))).
        by rewrite IH.
Qed.

Lemma split_no_sep_fields (sep : ascii) (s : string) :
  Forall (fun f => PyStr.count sep f = 0) (PyStr.split sep s).
Proof.
  induction s as [|c s IH]; simpl.
  - by constructor.
  - destruct (Ascii.eqb c sep) eqn:Hc.
    + by constructor.
    + destruct (PyStr.split sep s) as [|f fs].
      * repeat constructor. simpl. by rewrite Hc.
      * apply Forall_cons in IH as [Hf Hfs]. constructor; [|done].
        simpl. by rewrite Hc.
Qed.

Lemma lstrip_cut (s : string) :
  exists l, s = l +:+ PyStr.lstrip s /\ blank_text l = true.
Proof.
  induction s as [|c s (l & Hl & Hblank)]; [by exists ""|]. simpl.
  destruct (PyStr.is_space c) eqn:Hc.
  - exists (String c l). rewrite string_cons_append, <- Hl. simpl.
    by rewrite Hc, Hblank.
  - by exists "".
Qed.

Lemma rstrip_cut (s : string) :
  exists r, s = PyStr.rstrip s +:+ r /\ blank_text r = true.
Proof.
  induction s as [|c s (r & Hr & Hblank)]; [by exists ""|]. simpl.
  destruct (PyStr.rstrip s) as [|d t] eqn:Ht.
  - change (s = r) in Hr. subst r. destruct (PyStr.is_space c) eqn:Hc.
    + exists (String c s). simpl. by rewrite Hc, Hblank.
    + exists s. by rewrite string_cons_append.
  - exists r. by rewrite string_cons_append, <- Hr.
Qed.

Lemma strip_strips (s : string) : strips_to s (PyStr.strip s).
Proof.
  split; [apply strip_trimmed|].
  destruct (lstrip_cut s) as (l & Hl & Hlb).
  destruct (rstrip_cut (PyStr.lstrip s)) as (r & Hr & Hrb).
  exists l, r. unfold PyStr.strip. by rewrite <- Hr, <- Hl.
Qed.

(** C5. A line that starts with the call marker is cut once at its first
    colon; the payload is split at every pipe, each field is stripped, the
    first is the function name and the rest, in order, are the parameters,
    so there are exactly as many fields as the payload has pipes plus one;
    a payload without a pipe is a call with no parameter; and the line
    determines the directive.  The fields are the pipe-free pieces that,
    joined by pipes, give the payload back, and the name and parameters
    are those pieces with the white space at both ends, and nothing else,
    taken off. *)
Theorem function_call_parse (line : string) :
  PyStr.startswith line FUNCTION_CALL = true ->
  exists payload func_name params,
    line = FUNCTION_CALL +:+ payload /\
    PyStr.split1 ":" line = ["FUNCTION_CALL"; payload] /\
    parse_directive line = Ok (Call func_name params) /\
    func_name :: params = PyStr.strip <$> PyStr.split "|" payload /\
    length (func_name :: params) = PyStr.count "|" payload + 1 /\
    Forall PyStr.trimmed (func_name :: params) /\
    (PyStr.count "|" payload = 0 ->
     func_name = PyStr.strip payload /\ params = []) /\
    (forall d, parse_directive line = Ok d -> d = Call func_name params) /\
    exists fields,
      PyStr.join "|" fields = payload /\
      Forall (fun f => PyStr.count "|" f = 0) fields /\
      Forall2 strips_to fields (func_name :: params).
Proof.
  intros Hstart. destruct (startswith_app _ _ Hstart) as [payload ->].
  pose proof (split_length "|" payload) as Hlen.
  pose proof (join_split "|" payload) as Hjoin.
  pose proof (split_no_sep_fields "|" payload) as Hpipe.
  destruct (PyStr.split "|" payload) as [|field fields] eqn:Hsplit;
    [simpl in Hlen; lia|].
  assert (Hd : parse_directive (FUNCTION_CALL +:+ payload)
               = Ok (Call (PyStr.strip field) (PyStr.strip <$> fields))).
  { unfold parse_directive, parse_call. rewrite Hstart, split1_function_call.
    by rewrite Hsplit. }
  exists payload, (PyStr.strip field), (PyStr.strip <$> fields).
  split_and!.
  - done.
  - apply split1_function_call.
  - exact Hd.
  - by rewrite Hsplit.
  - rewrite <- Hlen. simpl. by rewrite length_fmap.
  - apply Forall_cons. split; [apply strip_trimmed|].
    apply Forall_fmap, Forall_forall. intros ? _. apply strip_trimmed.
  - intros Hzero. apply split_no_sep in Hzero. rewrite Hzero in Hsplit.
    by injection Hsplit as <- <-.
  - intros d Hd'. congruence.
  - exists (field :: fields). split_and!; [exact Hjoin|exact Hpipe|].
    constructor; [apply strip_strips|].
    clear. induction fields as [|g fields IH]; constructor;
      [apply strip_strips|exact IH].
Qed.

Ltac dict_lookup :=
  unfold dict; simpl; repeat (rewrite lookup_insert_ne by done);
  try rewrite lookup_insert_eq; try done.

Lemma attachment_path_probe (filename : string) :
  attachment_path filename
  = first_existing (candidate_paths filename) (path_abspath filename).
Proof.
  unfold attachment_path, first_existing, candidate_paths. simpl.
  destruct (path_exists filename); [done|].
  destruct (path_exists (path_join "Assignment" [filename])); [done|].
  by destruct (path_exists (path_join "Session4" ["Assignment"; filename])).
Qed.

Lemma attachment_path_nonempty `{!OsPathLaws os_path} (filename : string) :
  attachment_path filename <> "".
Proof.
  unfold attachment_path.
  destruct (path_exists filename) eqn:He.
  { intros ->. rewrite exists_empty in He. done. }
  destruct (path_exists (path_join "Assignment" [filename])).
  { by apply join_nonempty. }
  destruct (path_exists (path_join "Session4" ["Assignment"; filename])).
  { by apply join_nonempty. }
  apply abspath_nonempty.
Qed.

(** C1. For both e-mail tools and whatever the parameters are, the mapper
    succeeds and binds [to_address] to the recipient collected before the
    loop; two calls that differ only in the first (recipient) parameter
    are mapped to the same arguments; and every e-mail tool call a session
    makes carries that recipient. *)
Theorem recipient_fixed (func_name : string) (params : list string) :
  func_name = "email_ascii_image" \/ func_name = "send_email_with_attachment" ->
  (exists args,
      map_arguments func_name params = Ok args /\
      args !! "to_address" = Some (VStr recipient_email)) /\
  (forall supplied supplied' rest,
      params = supplied :: rest ->
      map_arguments func_name (supplied' :: rest) = map_arguments func_name params) /\
  (forall evs st args,
      session = Some (evs, st) ->
      In (EvCallTool func_name args) evs ->
      args !! "to_address" = Some (VStr recipient_email)).
Proof.
  intros Hname.
  assert (Hto : forall ps, exists args,
      map_arguments func_name ps = Ok args /\
      args !! "to_address" = Some (VStr recipient_email)).
  { intros ps. destruct Hname as [-> | ->].
    - destruct ps as [|p0 [|p1 [|p2 rest]]]; eexists; (split; [reflexivity|]);
        dict_lookup.
    - destruct ps as [|p0 [|p1 [|p2 [|p3 rest]]]]; eexists;
        (split; [reflexivity|]); dict_lookup. }
  split; [apply Hto|]. split.
  - intros s s' rest ->.
    destruct Hname as [-> | ->]; by destruct rest as [|?[|?[|??]]].
  - intros evs st args Hs Hin.
    destruct (session_calls _ _ _ _ _ Hs Hin) as [ps Hps].
    destruct (Hto ps) as (args' & Hargs & Hlook). congruence.
Qed.

(** C3 (as the code has it). [add_text_in_paint] and [save_paint_file]
    bind their first parameter, unchanged, as their single argument
    ([text], [filename]); [ascii_exp_sum] binds the session's input string
    as [input_string], whatever the parameters are. *)
Theorem single_text_argument (p : string) (rest params : list string) :
  map_arguments "add_text_in_paint" (p :: rest) = Ok {["text" := VStr p]} /\
  map_arguments "save_paint_file" (p :: rest) = Ok {["filename" := VStr p]} /\
  map_arguments "ascii_exp_sum" params = Ok {["input_string" := VStr user_input]}.
Proof.
  unfold map_arguments, dict. simpl. unfold mret, outcome_ret.
  by rewrite !insert_empty.
Qed.

(** C8. For [send_email_with_attachment] the mapper never raises and
    always binds [attachment_path] to a non-empty path: with four or more
    parameters, the first of the fourth parameter itself, [Assignment/] and
    [Session4/Assignment/] under which it exists, else its absolute path;
    with fewer, the fixed default. *)
Theorem attachment_path_total `{!OsPathLaws os_path} (params : list string) :
  exists args path,
    map_arguments "send_email_with_attachment" params = Ok args /\
    args !! "attachment_path" = Some (VStr path) /\
    path <> "" /\
    ((4 <= length params /\
      exists filename,
        params !! 3 = Some filename /\
        path = first_existing (candidate_paths filename) (path_abspath filename)) \/
     (length params < 4 /\ path = "paint_visualization.png")).
Proof.
  destruct params as [|p0 [|p1 [|p2 [|p3 rest]]]].
  1-4: eexists _, _; split; [reflexivity|]; split; [dict_lookup|];
       split; [done|]; right; simpl; split; [lia|done].
  eexists _, _. split; [reflexivity|]. split; [dict_lookup|].
  split; [apply attachment_path_nonempty|].
  left. simpl. split; [lia|]. exists p3. split; [done|].
  apply attachment_path_probe.
Qed.

(** C9. With four or more parameters, [draw_rectangle] maps the first four,
    read as integers, to [x1], [y1], [x2], [y2]: four decimal numerals of
    at most 4300 digits each are bound as the numbers they denote.  When
    one of the four is not an integer literal (it is empty, holds a
    character that is no digit, sign, underscore or blank, or has more
    than 4300 digits, or [int] refuses it otherwise) the mapper raises on
    the first such parameter, the pass reports the error with its
    iteration number and breaks before any tool call, and the session ends
    there. *)
Theorem draw_rectangle_integers (params : list string) :
  4 <= length params ->
  (forall x1 y1 x2 y2,
      PyInt.parse <$> take 4 params = [Some x1; Some y1; Some x2; Some y2] ->
      map_arguments "draw_rectangle" params
      = Ok (dict [("x1", VInt x1); ("y1", VInt y1);
                  ("x2", VInt x2); ("y2", VInt y2)])) /\
  (Exists (fun p => PyInt.parse p = None) (take 4 params) ->
   exists lit,
     In lit (take 4 params) /\ PyInt.parse lit = None /\
     map_arguments "draw_rectangle" params = Raise (ValueError lit) /\
     forall k evs0 st raw,
       passes k initial_state = Some (evs0, st) ->
       iteration st < max_iterations ->
       llm (iteration st) (prompt_of st) = Some raw ->
       parse_directive (PyStr.strip raw) = Ok (Call "draw_rectangle" params) ->
       session = Some (evs0 ++ pass_prefix st (PyStr.strip raw)
                         ++ [EvError (iteration st + 1) (ValueError lit)], st)) /\
  (forall n1 n2 n3 n4,
      take 4 params = numeral_text <$> [n1; n2; n3; n4] ->
      Forall readable [n1; n2; n3; n4] ->
      map_arguments "draw_rectangle" params
      = Ok (dict [("x1", VInt (numeral_value n1)); ("y1", VInt (numeral_value n2));
                  ("x2", VInt (numeral_value n3)); ("y2", VInt (numeral_value n4))])) /\
  (Exists not_a_literal (take 4 params) ->
   Exists (fun p => PyInt.parse p = None) (take 4 params)).
Proof.
  intros Hlen.
  destruct params as [|p0 [|p1 [|p2 [|p3 rest]]]]; simpl in Hlen; try lia.
  assert (Hok : forall x1 y1 x2 y2,
      PyInt.parse <$> [p0; p1; p2; p3] = [Some x1; Some y1; Some x2; Some y2] ->
      map_arguments "draw_rectangle" (p0 :: p1 :: p2 :: p3 :: rest)
      = Ok (dict [("x1", VInt x1); ("y1", VInt y1);
                  ("x2", VInt x2); ("y2", VInt y2)])).
  { intros x1 y1 x2 y2 [= H0 H1 H2 H3].
    unfold map_arguments, getitem, py_int. simpl.
    by rewrite H0, H1, H2, H3. }
  split_and!.
  - exact Hok.
  - intros Hex.
    assert (Hraise : exists lit,
        In lit [p0; p1; p2; p3] /\ PyInt.parse lit = None /\
        map_arguments "draw_rectangle" (p0 :: p1 :: p2 :: p3 :: rest)
        = Raise (ValueError lit)).
    { unfold map_arguments, getitem, py_int. simpl.
      destruct (PyInt.parse p0) eqn:H0; [|exists p0; simpl; auto].
      destruct (PyInt.parse p1) eqn:H1; [|exists p1; simpl; auto].
      destruct (PyInt.parse p2) eqn:H2; [|exists p2; simpl; auto].
      destruct (PyInt.parse p3) eqn:H3; [|exists p3; simpl; auto 6].
      exfalso. cbv [firstn] in Hex.
      repeat match goal with
             | H : Exists _ (_ :: _) |- _ => apply Exists_cons in H as [?|H]
             | H : Exists _ [] |- _ => by apply Exists_nil in H
             end; congruence. }
    destruct Hraise as (lit & Hin & Hnone & Hmap).
    exists lit. split_and!; try done.
    intros k evs0 st raw Hk Hlt Hllm Hd.
    eapply session_break; [exact Hk|exact Hlt|].
    rewrite loop_pass_eq, Hllm. cbv zeta. by rewrite Hd, Hmap.
  - intros n1 n2 n3 n4 Htake Hread. cbv [firstn] in Htake.
    injection Htake as -> -> -> ->.
    apply Forall_cons in Hread as [H1 Hread].
    apply Forall_cons in Hread as [H2 Hread].
    apply Forall_cons in Hread as [H3 Hread].
    apply Forall_cons in Hread as [H4 _].
    apply Hok. simpl.
    by rewrite !parse_numeral.
  - intros Hex. eapply Exists_impl; [exact Hex|].
    intros p Hp. by apply parse_not_a_literal.
Qed.

(** C10. An unknown tool, [open_paint], [draw_rectangle] with fewer than
    four parameters, and [add_text_in_paint] or [save_paint_file] with none
    are mapped to the empty dict; and whenever the mapper returns the empty
    dict the pass goes on to call the tool with it. *)
Theorem empty_mapping_still_invoked (func_name : string) (params : list string) :
  (~ In func_name known_tools \/
   func_name = "open_paint" \/
   (func_name = "draw_rectangle" /\ length params < 4) \/
   (func_name = "add_text_in_paint" /\ params = []) \/
   (func_name = "save_paint_file" /\ params = []) ->
   map_arguments func_name params = Ok ∅) /\
  (map_arguments func_name params = Ok ∅ ->
   forall k evs0 st raw,
     passes k initial_state = Some (evs0, st) ->
     iteration st < max_iterations ->
     llm (iteration st) (prompt_of st) = Some raw ->
     parse_directive (PyStr.strip raw) = Ok (Call func_name params) ->
     exists rest stf,
       session = Some (evs0 ++ (pass_prefix st (PyStr.strip raw)
                                  ++ [EvCallTool func_name ∅]) ++ rest, stf)).
Proof.
  split.
  - intros [Hunknown|[->|[[-> Hlen]|[[-> ->]|[-> ->]]]]]; try reflexivity.
    + unfold map_arguments, known_tools in *. simpl in Hunknown.
      repeat match goal with
             | |- context [String.eqb func_name ?s] =>
                 destruct (String.eqb_spec func_name s); [intuition congruence|]
             end.
      reflexivity.
    + by destruct params as [|p0 [|p1 [|p2 [|p3 rest]]]]; simpl in Hlen; try lia.
  - intros Hmap k evs0 st raw Hk Hlt Hllm Hd.
    assert (Hpass : exists tail c,
        loop_pass st = ((pass_prefix st (PyStr.strip raw)
                           ++ [EvCallTool func_name ∅]) ++ tail, c)).
    { rewrite loop_pass_eq, Hllm. cbv zeta. rewrite Hd, Hmap.
      destruct (call_tool _ _ _) as [r|]; [destruct (result_text r)|];
        eexists _, _; rewrite <- app_assoc; simpl; reflexivity. }
    destruct Hpass as (tail & c & Hpass).
    destruct (session_pass _ _ _ _ _ Hk Hlt Hpass) as (rest & stf & Hs).
    exists (tail ++ rest), stf. rewrite Hs. by rewrite <- !app_assoc.
Qed.

(** ** More on the parser *)

Lemma startswith_prefix (p r : string) : PyStr.startswith (p +:+ r) p = true.
Proof.
  unfold PyStr.startswith. induction p as [|c p IH].
  - by destruct r.
  - rewrite string_cons_append. simpl. by destruct (ascii_dec c c).
Qed.

Lemma count_append (c : ascii) (s t : string) :
  PyStr.count c (s +:+ t) = PyStr.count c s + PyStr.count c t.
Proof.
  induction s as [|d s IH]; [done|].
  rewrite string_cons_append. simpl. rewrite IH. lia.
Qed.

Lemma lstrip_count (c : ascii) (s : string) :
  PyStr.count c (PyStr.lstrip s) <= PyStr.count c s.
Proof.
  induction s as [|d s IH]; simpl; [done|].
  destruct (PyStr.is_space d); simpl; lia.
Qed.

Lemma rstrip_count (c : ascii) (s : string) :
  PyStr.count c (PyStr.rstrip s) <= PyStr.count c s.
Proof.
  induction s as [|d s IH]; simpl; [done|].
  destruct (PyStr.rstrip s) as [|e r]; [destruct (PyStr.is_space d)|];
    simpl in *; lia.
Qed.

Lemma strip_count (c : ascii) (s : string) :
  PyStr.count c s = 0 -> PyStr.count c (PyStr.strip s) = 0.
Proof.
  intros H. unfold PyStr.strip.
  pose proof (rstrip_count c (PyStr.lstrip s)). pose proof (lstrip_count c s). lia.
Qed.

Lemma split_append_sep (sep : ascii) (p rest : string) :
  PyStr.count sep p = 0 ->
  PyStr.split sep (p +:+ String sep rest) = p :: PyStr.split sep rest.
Proof.
  induction p as [|c p IH]; intros Hp.
  - simpl. by rewrite Ascii.eqb_refl.
  - rewrite string_cons_append. simpl in *.
    destruct (Ascii.eqb c sep); [done|]. by rewrite IH.
Qed.

Lemma split_join (sep : ascii) (f : string) (fs : list string) :
  Forall (fun s => PyStr.count sep s = 0) (f :: fs) ->
  PyStr.split sep (PyStr.join (String sep "") (f :: fs)) = f :: fs.
Proof.
  revert f. induction fs as [|g fs IH]; intros f [Hf Hfs]%Forall_cons.
  - simpl. by apply split_no_sep.
  - change (PyStr.join (String sep "") (f :: g :: fs))
      with (f +:+ String sep "" +:+ PyStr.join (String sep "") (g :: fs)).
    change (String sep "" +:+ ?x) with (String sep x).
    rewrite split_append_sep by done. by rewrite IH.
Qed.

Lemma parse_call_fields (text f : string) (ps : list string) :
  parse_directive text = Ok (Call f ps) ->
  exists payload,
    text = FUNCTION_CALL +:+ payload /\
    f :: ps = PyStr.strip <$> PyStr.split "|" payload.
Proof.
  unfold parse_directive.
  destruct (PyStr.startswith text FUNCTION_CALL) eqn:Hstart.
  - apply startswith_app in Hstart as [payload ->].
    unfold parse_call. rewrite split1_function_call.
    destruct (PyStr.split "|" payload) as [|g gs] eqn:Hsplit; [done|].
    simpl. intros [= <- <-]. exists payload. by rewrite Hsplit.
  - by destruct (PyStr.startswith text FINAL_ANSWER).
Qed.

(** X1. The parser never raises: once the line starts with the call
    marker, the unpacking of line 251 and [parts[0]] of line 253 cannot
    fail; every line is a call, a final answer or malformed, by its
    prefix alone, and the last two keep the line as it is. *)
Theorem parse_directive_total (text : string) :
  exists d,
    parse_directive text = Ok d /\
    match d with
    | Call _ _ => PyStr.startswith text FUNCTION_CALL = true
    | Final t =>
        t = text /\ PyStr.startswith text FUNCTION_CALL = false /\
        PyStr.startswith text FINAL_ANSWER = true
    | Malformed t =>
        t = text /\ PyStr.startswith text FUNCTION_CALL = false /\
        PyStr.startswith text FINAL_ANSWER = false
    end.
Proof.
  unfold parse_directive.
  destruct (PyStr.startswith text FUNCTION_CALL) eqn:Hstart.
  - pose proof Hstart as [payload ->]%startswith_app.
    unfold parse_call. rewrite split1_function_call.
    pose proof (split_length "|" payload) as Hlen.
    destruct (PyStr.split "|" payload) as [|g gs]; [simpl in Hlen; lia|].
    simpl. by eexists.
  - destruct (PyStr.startswith text FINAL_ANSWER) eqn:Hfinal; by eexists.
Qed.

(** X3. Round trip: the line the prompt asks for, [FUNCTION_CALL: ] then
    the name and the parameters joined by pipes, parses back to that name
    and those parameters, provided each of them is stripped and has no
    pipe. *)
Theorem call_line_round_trip (f : string) (ps : list string) :
  Forall (fun s => PyStr.strip s = s /\ PyStr.count "|" s = 0) (f :: ps) ->
  parse_directive ("FUNCTION_CALL: " +:+ PyStr.join "|" (f :: ps))
  = Ok (Call f ps).
Proof.
  intros Hall.
  assert (Hpipe : Forall (fun s => PyStr.count "|" s = 0) (f :: ps)).
  { eapply Forall_impl; [exact Hall|]. by intros s [_ ?]. }
  assert (Hstrip : PyStr.strip <$> ps = ps).
  { apply Forall_cons in Hall as [_ Hps]. clear Hpipe.
    induction Hps as [|p ps [Hp _] _ IH]; [done|]. by rewrite fmap_cons, Hp, IH. }
  apply Forall_cons in Hall as [[Hf _] _].
  change ("FUNCTION_CALL: " +:+ ?x) with (FUNCTION_CALL +:+ String " " x).
  unfold parse_directive, parse_call.
  rewrite startswith_prefix, split1_function_call.
  cbn [PyStr.split]. change (Ascii.eqb " " "|") with false. cbv iota.
  rewrite (split_join "|" f ps Hpipe). rewrite fmap_cons, Hstrip.
  replace (PyStr.strip (String " " f)) with (PyStr.strip f) by reflexivity.
  by rewrite Hf.
Qed.

(** ** More on the mapper *)

Ltac by_tool f :=
  repeat match goal with
         | |- context [String.eqb f ?s] =>
             destruct (String.eqb_spec f s) as [->|?]
         end.

Lemma ok_inj {A : Type} (a b : A) : Ok a = Ok b -> a = b.
Proof.
  intros H.
  exact (f_equal (fun r => match r with Ok x => x | Raise _ => a end) H).
Qed.

Lemma loop_pass_calls_parsed (st : loop_state) (evs : list event) (c : control)
    (f : string) (args : gmap string pyval) :
  loop_pass st = (evs, c) ->
  In (EvCallTool f args) evs ->
  exists raw ps,
    parse_directive (PyStr.strip raw) = Ok (Call f ps) /\
    map_arguments f ps = Ok args.
Proof.
  rewrite loop_pass_eq. cbv zeta. unfold pass_prefix.
  destruct (llm _ _) as [raw|].
  2: { intros [= <- <-]. simpl. intuition congruence. }
  destruct (parse_directive _) as [[g ps|t|t]|e] eqn:Hd.
  2-4: intros [= <- <-]; simpl; intuition congruence.
  destruct (map_arguments g ps) as [args'|e] eqn:Hm.
  2: { intros [= <- <-]. simpl. intuition congruence. }
  assert (Hin : forall tail,
      ~ In (EvCallTool f args) tail ->
      In (EvCallTool f args)
         ([EvIteration (iteration st + 1); EvGenerate (prompt_of st);
           EvResponse (PyStr.strip raw)] ++ EvCallTool g args' :: tail) ->
      exists raw ps,
        parse_directive (PyStr.strip raw) = Ok (Call f ps) /\
        map_arguments f ps = Ok args).
  { intros tail Htail. simpl. intros [?|[?|[?|[Heq|?]]]]; try done.
    injection Heq as <- <-. by exists raw, ps. }
  destruct (call_tool _ g args') as [r|].
  2: { intros [= <- <-]. apply Hin. simpl. intuition congruence. }
  destruct (result_text r) as [t|e];
    intros [= <- <-]; apply Hin; simpl; intuition congruence.
Qed.

Lemma passes_calls_parsed (k : nat) (st st' : loop_state) (evs : list event)
    (f : string) (args : gmap string pyval) :
  passes k st = Some (evs, st') ->
  In (EvCallTool f args) evs ->
  exists raw ps,
    parse_directive (PyStr.strip raw) = Ok (Call f ps) /\
    map_arguments f ps = Ok args.
Proof.
  revert st evs. induction k as [|k IH]; intros st evs; simpl.
  - by intros [= <- <-].
  - destruct (iteration st <? max_iterations); [|done].
    destruct (loop_pass st) as [evs1 [st1|]] eqn:Hpass; [|done].
    destruct (passes k st1) as [[evs2 st2]|] eqn:Hk; [|done].
    intros [= <- <-]. rewrite in_app_iff. intros [Hin|Hin].
    + by eapply loop_pass_calls_parsed.
    + by eapply IH.
Qed.

Lemma session_calls_parsed (st stf : loop_state) (evs : list event)
    (f : string) (args : gmap string pyval) :
  session_from st = Some (evs, stf) ->
  In (EvCallTool f args) evs ->
  exists raw ps,
    parse_directive (PyStr.strip raw) = Ok (Call f ps) /\
    map_arguments f ps = Ok args.
Proof.
  intros (k & evs0 & tail & Hk & -> & Htail)%session_from_decompose.
  rewrite in_app_iff. intros [Hin|Hin].
  - by eapply passes_calls_parsed.
  - destruct Htail as [[_ ->]|[_ Hstop]].
    + simpl in Hin. intuition congruence.
    + by eapply loop_pass_calls_parsed.
Qed.

Ltac lookup_in H :=
  unfold dict in H; simpl in H;
  repeat first [ rewrite lookup_insert_eq in H
               | rewrite lookup_insert_ne in H by done ];
  rewrite ?lookup_empty in H.

Lemma mapped_texts_have_no_pipe (f : string) (ps : list string)
    (args : gmap string pyval) (key v : string) :
  Forall (fun s => PyStr.count "|" s = 0) ps ->
  map_arguments f ps = Ok args ->
  args !! key = Some (VStr v) ->
  In key ["text"; "filename"; "subject"] \/ (key = "body" /\ v <> default_body) ->
  PyStr.count "|" v = 0.
Proof.
  intros Hps Hmap Hlook Hkey. revert Hmap. unfold map_arguments.
  by_tool f.
  - intros <-%ok_inj.
    destruct Hkey as [[<-|[<-|[<-|[]]]]|[-> _]]; lookup_in Hlook; done.
  - intros <-%ok_inj. by rewrite lookup_empty in Hlook.
  - destruct ps as [|p0 [|p1 [|p2 [|p3 rest]]]]; simpl;
      try (intros <-%ok_inj; by rewrite lookup_empty in Hlook).
    unfold getitem, py_int. simpl.
    destruct (PyInt.parse p0); [|done]. destruct (PyInt.parse p1); [|done].
    destruct (PyInt.parse p2); [|done]. destruct (PyInt.parse p3); [|done].
    simpl. intros <-%ok_inj.
    destruct Hkey as [[<-|[<-|[<-|[]]]]|[-> _]]; lookup_in Hlook; done.
  - destruct ps as [|p0 rest]; simpl; intros <-%ok_inj;
      [by rewrite lookup_empty in Hlook|].
    apply Forall_cons in Hps as [Hp0 _].
    destruct Hkey as [[<-|[<-|[<-|[]]]]|[-> _]]; lookup_in Hlook;
      by simplify_eq.
  - destruct ps as [|p0 rest]; simpl; intros <-%ok_inj;
      [by rewrite lookup_empty in Hlook|].
    apply Forall_cons in Hps as [Hp0 _].
    destruct Hkey as [[<-|[<-|[<-|[]]]]|[-> _]]; lookup_in Hlook;
      by simplify_eq.
  - destruct ps as [|p0 [|p1 [|p2 rest]]]; simpl; intros <-%ok_inj;
      repeat match goal with
             | H : Forall _ (_ :: _) |- _ => apply Forall_cons in H as [? H]
             end;
      destruct Hkey as [[<-|[<-|[<-|[]]]]|[-> Hne]]; lookup_in Hlook;
      by simplify_eq.
  - destruct ps as [|p0 [|p1 [|p2 [|p3 rest]]]]; simpl; intros <-%ok_inj;
      repeat match goal with
             | H : Forall _ (_ :: _) |- _ => apply Forall_cons in H as [? H]
             end;
      destruct Hkey as [[<-|[<-|[<-|[]]]]|[-> Hne]]; lookup_in Hlook;
      by simplify_eq.
  - intros <-%ok_inj. by rewrite lookup_empty in Hlook.
Qed.

(** X2. No field of a parsed call contains a pipe: the function name and
    every parameter are pipe-free.  So in every tool call of a session
    the tool name is pipe-free, and so are the [text], [filename] and
    [subject] arguments, and the [body] argument unless it is the default
    body.  (The input string, the recipient, the default body and the
    attachment path do not come from the model's fields as they are, and
    nothing is said of them.) *)
Theorem parsed_fields_have_no_pipe :
  (forall text f ps,
      parse_directive text = Ok (Call f ps) ->
      Forall (fun s => PyStr.count "|" s = 0) (f :: ps)) /\
  (forall evs st f args,
      session = Some (evs, st) ->
      In (EvCallTool f args) evs ->
      PyStr.count "|" f = 0 /\
      forall key v,
        args !! key = Some (VStr v) ->
        In key ["text"; "filename"; "subject"]
        \/ (key = "body" /\ v <> default_body) ->
        PyStr.count "|" v = 0).
Proof.
  assert (Hfields : forall text f ps,
      parse_directive text = Ok (Call f ps) ->
      Forall (fun s => PyStr.count "|" s = 0) (f :: ps)).
  { intros text f ps (payload & _ & ->)%parse_call_fields.
    apply Forall_fmap. eapply Forall_impl; [apply split_no_sep_fields|].
    intros s Hs. by apply strip_count. }
  split; [exact Hfields|].
  intros evs st f args Hs Hin.
  destruct (session_calls_parsed _ _ _ _ _ Hs Hin) as (raw & ps & Hd & Hmap).
  apply Hfields, Forall_cons in Hd as [Hf Hps].
  split; [exact Hf|]. intros key v Hlook Hkey.
  by eapply mapped_texts_have_no_pipe.
Qed.

(** X4. The mapper can raise in one place only: [draw_rectangle] with four
    or more parameters, one of the first four refused by [int] (it is no
    integer literal, or one of more than 4300 digits), and then it is the
    [ValueError] of that parameter.  Indexing [params] never fails, for
    any tool and any number of parameters. *)
Theorem map_arguments_raises_only_on_coordinates (func_name : string)
    (params : list string) (e : exn) :
  map_arguments func_name params = Raise e ->
  func_name = "draw_rectangle" /\ 4 <= length params /\
  exists lit,
    In lit (take 4 params) /\ PyInt.parse lit = None /\ e = ValueError lit.
Proof.
  unfold map_arguments. by_tool func_name;
    destruct params as [|p0 [|p1 [|p2 [|p3 rest]]]]; try done.
  unfold getitem, py_int. simpl. intros H.
  split; [done|]. split; [lia|].
  destruct (PyInt.parse p0) eqn:H0;
    [|exists p0; injection H as <-; auto].
  destruct (PyInt.parse p1) eqn:H1;
    [|exists p1; injection H as <-; auto].
  destruct (PyInt.parse p2) eqn:H2;
    [|exists p2; injection H as <-; auto].
  destruct (PyInt.parse p3) eqn:H3;
    [done|exists p3; injection H as <-; auto 6].
Qed.

(** X5. Surplus parameters are ignored: once a tool has the number of
    parameters its branch asks for, appending more changes nothing. *)
Theorem surplus_parameters_ignored (func_name : string)
    (params extra : list string) :
  arity func_name <= length params ->
  map_arguments func_name (params ++ extra) = map_arguments func_name params.
Proof.
  unfold map_arguments, arity. by_tool func_name; try done;
    destruct params as [|p0 [|p1 [|p2 [|p3 rest]]]]; simpl; intros Hlen;
    try lia; reflexivity.
Qed.

(** X6. All or nothing: a tool given fewer parameters than its branch asks
    for is mapped as if it had been given none, so a subject supplied
    without a body, or a file name supplied as third parameter, is
    dropped. *)
Theorem shortfall_drops_every_parameter (func_name : string)
    (params : list string) :
  length params < arity func_name ->
  map_arguments func_name params = map_arguments func_name [].
Proof.
  unfold map_arguments, arity. by_tool func_name;
    destruct params as [|p0 [|p1 [|p2 [|p3 rest]]]]; simpl; intros Hlen;
    try lia; reflexivity.
Qed.

(** X7. For both e-mail tools, with enough parameters the second and third
    are bound unchanged as [subject] and [body]; with too few, the subject
    is the fixed default and the body the fixed sentence quoting the
    session's input string. *)
Theorem email_subject_and_body (func_name : string) (params : list string) :
  func_name = "email_ascii_image" \/ func_name = "send_email_with_attachment" ->
  exists args,
    map_arguments func_name params = Ok args /\
    (arity func_name <= length params ->
     args !! "subject" = VStr <$> params !! 1 /\
     args !! "body" = VStr <$> params !! 2) /\
    (length params < arity func_name ->
     args !! "subject" = Some (VStr "ASCII Calculation Result") /\
     args !! "body"
     = Some (VStr ("Here is the ASCII calculation result for '"
                   +:+ user_input +:+ "'"))).
Proof.
  intros [-> | ->].
  - destruct params as [|p0 [|p1 [|p2 rest]]]; eexists;
      (split; [reflexivity|]); unfold arity; simpl; split; intros Hlen;
      try lia; split; dict_lookup.
  - destruct params as [|p0 [|p1 [|p2 [|p3 rest]]]]; eexists;
      (split; [reflexivity|]); unfold arity; simpl; split; intros Hlen;
      try lia; split; dict_lookup.
Qed.

(** X8. What reaches a tool is either no argument at all or exactly the
    argument names of that tool's branch, never a part of them. *)
Theorem mapped_keys (func_name : string) (params : list string)
    (args : gmap string pyval) :
  map_arguments func_name params = Ok args ->
  args = ∅ \/ dom args = list_to_set (argument_names func_name).
Proof.
  unfold map_arguments, argument_names. by_tool func_name;
    try (intros <-%ok_inj; by left).
  - intros <-%ok_inj. right. unfold dict. simpl.
    rewrite !dom_insert_L, dom_empty_L. set_solver.
  - destruct params as [|p0 [|p1 [|p2 [|p3 rest]]]]; simpl;
      try (intros <-%ok_inj; by left).
    unfold getitem, py_int. simpl.
    destruct (PyInt.parse p0); [|done]. destruct (PyInt.parse p1); [|done].
    destruct (PyInt.parse p2); [|done]. destruct (PyInt.parse p3); [|done].
    simpl. intros <-%ok_inj. right. unfold dict. simpl.
    rewrite !dom_insert_L, dom_empty_L. set_solver.
  - destruct params as [|p0 rest]; simpl; intros <-%ok_inj; [by left|].
    right. unfold dict. simpl. rewrite !dom_insert_L, dom_empty_L. set_solver.
  - destruct params as [|p0 rest]; simpl; intros <-%ok_inj; [by left|].
    right. unfold dict. simpl. rewrite !dom_insert_L, dom_empty_L. set_solver.
  - destruct params as [|p0 [|p1 [|p2 rest]]]; simpl; intros <-%ok_inj;
      right; unfold dict; simpl; rewrite !dom_insert_L, dom_empty_L; set_solver.
  - destruct params as [|p0 [|p1 [|p2 [|p3 rest]]]]; simpl; intros <-%ok_inj;
      right; unfold dict; simpl; rewrite !dom_insert_L, dom_empty_L; set_solver.
Qed.

(** ** More on the loop *)

Lemma loop_pass_head (st : loop_state) :
  exists tail,
    (loop_pass st).1
    = [EvIteration (iteration st + 1); EvGenerate (prompt_of st)] ++ tail.
Proof.
  rewrite loop_pass_eq. cbv zeta. unfold pass_prefix.
  destruct (llm _ _) as [raw|]; [|by eexists].
  destruct (parse_directive _) as [[f ps|t|t]|e]; try by eexists.
  destruct (map_arguments f ps) as [args|e]; [|by eexists].
  destruct (call_tool _ f args) as [r|]; [|by eexists].
  destruct (result_text r) as [t|e]; by eexists.
Qed.

Lemma loop_pass_stop_report (st : loop_state) (evs : list event) :
  loop_pass st = (evs, Stop) ->
  exists body last,
    evs = body ++ [last] /\ is_terminal last = true /\
    last <> EvMaxIterations /\
    count_of is_terminal body = 0 /\ recorded None evs = [] /\
    (forall n e, last = EvError n e -> n = iteration st + 1).
Proof.
  rewrite loop_pass_eq. cbv zeta.
  assert (Hgo : forall body last,
      is_terminal last = true -> last <> EvMaxIterations ->
      count_of is_terminal body = 0 -> recorded None (body ++ [last]) = [] ->
      (forall n e, last = EvError n e -> n = iteration st + 1) ->
      (body ++ [last], Stop) = (evs, Stop) ->
      exists body last,
        evs = body ++ [last] /\ is_terminal last = true /\
        last <> EvMaxIterations /\
        count_of is_terminal body = 0 /\ recorded None evs = [] /\
        (forall n e, last = EvError n e -> n = iteration st + 1)).
  { intros body last ? ? ? ? ? [= <-]. by exists body, last. }
  destruct (llm _ _) as [raw|].
  2: { apply (Hgo [EvIteration (iteration st + 1); EvGenerate (prompt_of st)]);
         try done. by intros n e [= <- _]. }
  destruct (parse_directive _) as [[f ps|t|t]|e].
  2-4: apply Hgo; try done; by intros n e' [= <- _].
  destruct (map_arguments f ps) as [args|e].
  2: { apply Hgo; try done. by intros n e' [= <- _]. }
  destruct (call_tool _ f args) as [r|].
  2: { apply (Hgo (pass_prefix st (PyStr.strip raw) ++ [EvCallTool f args]));
         try done. by intros n e [= <- _]. }
  destruct (result_text r) as [t|e] eqn:Hr; [done|].
  rewrite (app_assoc _ [EvCallTool f args; EvToolReturned r] [EvError _ e]
           : pass_prefix st (PyStr.strip raw)
               ++ [EvCallTool f args; EvToolReturned r; EvError (iteration st + 1) e]
             = (pass_prefix st (PyStr.strip raw)
                  ++ [EvCallTool f args; EvToolReturned r])
                 ++ [EvError (iteration st + 1) e]).
  apply Hgo; try done.
  - simpl. by rewrite Hr.
  - by intros n e' [= <- _].
Qed.

Lemma passes_no_report (k : nat) (st st' : loop_state) (evs : list event) :
  passes k st = Some (evs, st') -> count_of is_terminal evs = 0.
Proof.
  revert st evs. induction k as [|k IH]; intros st evs; simpl.
  - by intros [= <- <-].
  - destruct (iteration st <? max_iterations); [|done].
    destruct (loop_pass st) as [evs1 [st1|]] eqn:Hpass; [|done].
    destruct (passes k st1) as [[evs2 st2]|] eqn:Hk; [|done].
    intros [= <- <-]. rewrite count_of_app, (IH _ _ Hk).
    apply loop_pass_next in Hpass
      as (? & ? & ? & ? & ? & ? & _ & _ & _ & _ & _ & -> & _).
    reflexivity.
Qed.

(** X9. Every session ends with exactly one closing report, as its last
    event: the completion, the unexpected-format report, an error report
    or the max-iterations notice; an error report carries the 1-based
    number of the pass it happened in, and the notice is the closing
    report exactly when the counter has reached the cap. *)
Theorem session_ends_with_one_report :
  exists evs st body last,
    session = Some (evs, st) /\ evs = body ++ [last] /\
    is_terminal last = true /\ count_of is_terminal body = 0 /\
    (forall n e, last = EvError n e -> n = iteration st + 1) /\
    (last = EvMaxIterations <-> iteration st = max_iterations).
Proof.
  destruct (session_from_total initial_state) as [[evs st] Hs].
  pose proof Hs as (k & evs0 & tail & Hk & -> & Htail)%session_from_decompose.
  pose proof (passes_no_report _ _ _ _ Hk) as Hnone.
  apply passes_inv in Hk as (Hit & Hle & _). simpl in Hit.
  destruct Htail as [[Hge ->]|[Hlt Hstop]].
  - exists (evs0 ++ [EvMaxIterations]), st, evs0, EvMaxIterations.
    split_and!; try done.
    split; [intros _|done]. pose proof (eq_refl : max_iterations = 10). lia.
  - apply loop_pass_stop_report in Hstop
      as (body & last & -> & Hlast & Hnot & Hbody & _ & Herr).
    exists (evs0 ++ body ++ [last]), st, (evs0 ++ body), last.
    split_and!; try done.
    + by rewrite app_assoc.
    + rewrite count_of_app. lia.
    + split; [done|lia].
Qed.

(** X10. A session that stops before the cap has made one generation
    request more than it has recorded results; one that reaches the cap
    has made exactly [max_iterations]; and the tool calls lie between the
    recorded results and the generation requests. *)
Theorem request_counts (evs : list event) (st : loop_state) :
  session = Some (evs, st) ->
  count_of is_generate evs = Nat.min (iteration st + 1) max_iterations /\
  count_of is_banner evs = count_of is_generate evs /\
  iteration st <= count_of is_call evs <= count_of is_generate evs.
Proof.
  intros (k & evs0 & tail & Hk & -> & Htail)%session_from_decompose.
  apply passes_inv in Hk as (Hit & Hle & _ & Hb & Hg & Hc & _). simpl in Hit.
  rewrite !count_of_app, Hb, Hg, Hc.
  pose proof (eq_refl : max_iterations = 10).
  destruct Htail as [[Hge ->]|[Hlt Hstop]].
  - simpl. lia.
  - apply loop_pass_stop_counts in Hstop as (-> & -> & ? & _). lia.
Qed.

Lemma passes_query (k : nat) (st st' : loop_state) (evs : list event) :
  passes (S k) st = Some (evs, st') ->
  query st' = next_query (iteration_response st').
Proof.
  revert st evs. induction k as [|k IH]; intros st evs.
  - simpl. destruct (iteration st <? max_iterations); [|done].
    destruct (loop_pass st) as [evs1 [st1|]] eqn:Hpass; [|done].
    simpl. intros [= _ <-].
    by apply loop_pass_next in Hpass
      as (? & ? & ? & ? & ? & ? & _ & _ & _ & _ & _ & _ & _ & _ & ?).
  - change (passes (S (S k)) st)
      with (if iteration st <? max_iterations then
              match loop_pass st with
              | (evs1, Next st1) =>
                  '(evs', st'') ← passes (S k) st1; Some (evs1 ++ evs', st'')
              | (_, Stop) => None
              end
            else None).
    destruct (iteration st <? max_iterations); [|done].
    destruct (loop_pass st) as [evs1 [st1|]]; [|done].
    destruct (passes (S k) st1) as [[evs2 st2]|] eqn:Hk; [|done].
    simpl. intros [= _ <-]. by eapply IH.
Qed.

(** X11. After the first pass, every generation request is made on the
    preamble followed by the rendering of the whole transcript so far, and
    on nothing else: the task sentence of the first request, with the
    input string and the recipient, is not sent again. *)
Theorem later_prompts_carry_the_transcript (k : nat) (evs : list event)
    (st : loop_state) :
  passes k initial_state = Some (evs, st) ->
  0 < k ->
  iteration st < max_iterations ->
  exists rest stf,
    session
    = Some (evs
              ++ [EvIteration (k + 1);
                  EvGenerate (system_prompt +:+ PyStr.nl +:+ PyStr.nl
                              +:+ "Query: "
                              +:+ next_query (iteration_response st))]
              ++ rest, stf).
Proof.
  intros Hk Hpos Hlt. destruct k as [|k]; [lia|].
  pose proof (passes_query _ _ _ _ Hk) as Hq.
  pose proof Hk as (Hit & _)%passes_inv. simpl in Hit.
  destruct (loop_pass st) as [evs1 c] eqn:Hpass.
  destruct (loop_pass_head st) as [tail Hhead]. rewrite Hpass in Hhead.
  simpl in Hhead. subst evs1.
  destruct (session_pass _ _ _ _ _ Hk Hlt Hpass) as (rest & stf & Hs).
  exists (tail ++ rest), stf. rewrite Hs.
  unfold prompt_of. rewrite Hq, Hit. simpl. done.
Qed.

Lemma passes_recorded (k : nat) (st st' : loop_state) (evs : list event) :
  passes k st = Some (evs, st') ->
  exists pairs,
    (forall tail, recorded None (evs ++ tail) = pairs ++ recorded None tail) /\
    iteration_response st'
    = iteration_response st
        ++ imap (fun j ft => transcript_entry (iteration st + j) ft.1 ft.2) pairs.
Proof.
  revert st evs. induction k as [|k IH]; intros st evs; simpl.
  - intros [= <- <-]. exists []. split; [done|]. by rewrite app_nil_r.
  - destruct (iteration st <? max_iterations); [|done].
    destruct (loop_pass st) as [evs1 [st1|]] eqn:Hpass; [|done].
    destruct (passes k st1) as [[evs2 st2]|] eqn:Hk; [|done].
    intros [= <- <-].
    destruct (IH _ _ Hk) as (pairs & Hrec & Hresp).
    apply loop_pass_next in Hpass
      as (raw & f & ps & args & r & t & _ & _ & _ & _ & Hr & -> & Hit & Hresp1 & _).
    exists ((f, t) :: pairs). split.
    + intros tail. rewrite <- app_assoc. unfold pass_prefix. simpl.
      by rewrite Hr, Hrec.
    + rewrite Hresp, Hresp1, <- app_assoc. f_equal. simpl.
      rewrite Nat.add_0_r. f_equal. apply imap_ext. intros j ft _. simpl.
      f_equal. rewrite Hit. lia.
Qed.

(** X12. The transcript is the trace's record: at the top of every pass
    and at the end of the session, entry [i] is the numbered sentence for
    the [i]-th tool call that came back with a text, naming that call's
    tool and quoting that text. *)
Theorem transcript_records_the_trace :
  (forall k evs st,
      passes k initial_state = Some (evs, st) ->
      iteration_response st
      = imap (fun i ft => transcript_entry i ft.1 ft.2) (recorded None evs)) /\
  (forall evs st,
      session = Some (evs, st) ->
      iteration_response st
      = imap (fun i ft => transcript_entry i ft.1 ft.2) (recorded None evs)).
Proof.
  assert (Hmid : forall k evs st tail,
      passes k initial_state = Some (evs, st) ->
      recorded None tail = [] ->
      iteration_response st
      = imap (fun i ft => transcript_entry i ft.1 ft.2)
             (recorded None (evs ++ tail))).
  { intros k evs st tail (pairs & Hrec & Hresp)%passes_recorded Htail.
    rewrite Hrec, Htail, app_nil_r, Hresp. done. }
  split.
  - intros k evs st Hk. rewrite <- (app_nil_r evs). by eapply Hmid.
  - intros evs st (k & evs0 & tail & Hk & -> & Htail)%session_from_decompose.
    eapply Hmid; [exact Hk|].
    destruct Htail as [[_ ->]|[_ Hstop]]; [done|].
    by apply loop_pass_stop_report in Hstop as (_ & _ & _ & _ & _ & _ & ? & _).
Qed.

(** X13. When the generation step raises (time-out, backend error, a
    response without text) the pass reports it under its own number and
    the session ends there: no tool is called and the globals stay as they
    were. *)
Theorem generation_failure_aborts (k : nat) (evs0 : list event) (st : loop_state) :
  passes k initial_state = Some (evs0, st) ->
  iteration st < max_iterations ->
  llm (iteration st) (prompt_of st) = None ->
  session
  = Some (evs0 ++ [EvIteration (k + 1); EvGenerate (prompt_of st);
                   EvError (k + 1) GenerationError], st).
Proof.
  intros Hk Hlt Hllm.
  pose proof Hk as (Hit & _)%passes_inv. simpl in Hit.
  eapply session_break; [exact Hk|exact Hlt|].
  by rewrite loop_pass_eq, Hllm, Hit.
Qed.

Lemma loop_pass_call (st : loop_state) (raw func_name : string)
    (params : list string) (args : gmap string pyval) :
  llm (iteration st) (prompt_of st) = Some raw ->
  parse_directive (PyStr.strip raw) = Ok (Call func_name params) ->
  map_arguments func_name params = Ok args ->
  exists tail c,
    loop_pass st = ((pass_prefix st (PyStr.strip raw)
                       ++ [EvCallTool func_name args]) ++ tail, c).
Proof.
  intros Hllm Hd Hmap.
  rewrite loop_pass_eq, Hllm. cbv zeta. rewrite Hd, Hmap.
  destruct (call_tool _ _ _) as [r|]; [destruct (result_text r)|];
    eexists _, _; rewrite <- app_assoc; simpl; reflexivity.
Qed.

Lemma email_to_address (func_name : string) (params : list string) :
  func_name = "email_ascii_image" \/ func_name = "send_email_with_attachment" ->
  exists args,
    map_arguments func_name params = Ok args /\
    args !! "to_address" = Some (VStr recipient_email).
Proof.
  intros [-> | ->].
  - destruct params as [|p0 [|p1 [|p2 rest]]]; eexists; (split; [reflexivity|]);
      dict_lookup.
  - destruct params as [|p0 [|p1 [|p2 [|p3 rest]]]]; eexists;
      (split; [reflexivity|]); dict_lookup.
Qed.

(** X14. A call is made for every line that parses and maps, whatever the
    name and the arguments: the name is not looked up in the catalogue
    fetched at start-up. *)
Theorem mapped_call_is_made (k : nat) (evs0 : list event) (st : loop_state)
    (raw func_name : string) (params : list string) (args : gmap string pyval) :
  passes k initial_state = Some (evs0, st) ->
  iteration st < max_iterations ->
  llm (iteration st) (prompt_of st) = Some raw ->
  parse_directive (PyStr.strip raw) = Ok (Call func_name params) ->
  map_arguments func_name params = Ok args ->
  exists rest stf,
    session
    = Some (evs0 ++ (pass_prefix st (PyStr.strip raw)
                       ++ [EvCallTool func_name args]) ++ rest, stf).
Proof.
  intros Hk Hlt Hllm Hd Hmap.
  destruct (loop_pass_call _ _ _ _ _ Hllm Hd Hmap) as (tail & c & Hpass).
  destruct (session_pass _ _ _ _ _ Hk Hlt Hpass) as (rest & stf & Hs).
  exists (tail ++ rest), stf. rewrite Hs. by rewrite <- !app_assoc.
Qed.

(** X15. When the tool call itself raises, the call was attempted, the
    error is reported under the pass's number, nothing is added to the
    transcript and the session ends. *)
Theorem tool_error_aborts (k : nat) (evs0 : list event) (st : loop_state)
    (raw func_name : string) (params : list string) (args : gmap string pyval) :
  passes k initial_state = Some (evs0, st) ->
  iteration st < max_iterations ->
  llm (iteration st) (prompt_of st) = Some raw ->
  parse_directive (PyStr.strip raw) = Ok (Call func_name params) ->
  map_arguments func_name params = Ok args ->
  call_tool (iteration st) func_name args = None ->
  session
  = Some (evs0 ++ pass_prefix st (PyStr.strip raw)
            ++ [EvCallTool func_name args; EvError (k + 1) ToolError], st) /\
  length (iteration_response st) = k.
Proof.
  intros Hk Hlt Hllm Hd Hmap Hcall.
  pose proof Hk as (Hit & _ & (added & Hadd & Hlen) & _)%passes_inv.
  simpl in Hit, Hadd. split; [|by rewrite Hadd].
  eapply session_break; [exact Hk|exact Hlt|].
  rewrite loop_pass_eq, Hllm. cbv zeta. by rewrite Hd, Hmap, Hcall, Hit.
Qed.

(** X16. When the call returns a result from which no text can be taken
    (an empty content list raises [IndexError], a first item without a
    text raises [AttributeError]), the tool has run but the turn is
    reported as an error, it is not added to the transcript, and the
    session ends. *)
Theorem result_without_text_aborts (k : nat) (evs0 : list event)
    (st : loop_state) (raw func_name : string) (params : list string)
    (args : gmap string pyval) (content : list content_item) :
  passes k initial_state = Some (evs0, st) ->
  iteration st < max_iterations ->
  llm (iteration st) (prompt_of st) = Some raw ->
  parse_directive (PyStr.strip raw) = Ok (Call func_name params) ->
  map_arguments func_name params = Ok args ->
  call_tool (iteration st) func_name args = Some (ContentList content) ->
  content = [] \/ (exists rest, content = OtherContent :: rest) ->
  session
  = Some (evs0 ++ pass_prefix st (PyStr.strip raw)
            ++ [EvCallTool func_name args;
                EvToolReturned (ContentList content);
                EvError (k + 1)
                  (match content with
                   | [] => IndexError
                   | _ => AttributeError
                   end)], st) /\
  length (iteration_response st) = k.
Proof.
  intros Hk Hlt Hllm Hd Hmap Hcall Hcontent.
  pose proof Hk as (Hit & _ & (added & Hadd & Hlen) & _)%passes_inv.
  simpl in Hit, Hadd. split; [|by rewrite Hadd].
  eapply session_break; [exact Hk|exact Hlt|].
  rewrite loop_pass_eq, Hllm. cbv zeta. rewrite Hd, Hmap, Hcall, Hit.
  by destruct Hcontent as [->|[rest ->]].
Qed.

End Agent.

(** ** Start-up *)

(** X17. Whatever is typed at the first prompt, every [ascii_exp_sum] call
    of the session carries a non-empty [input_string]: the typed line, or
    [Hello World] when the line was empty. *)
Theorem input_string_never_empty {os_path : OsPath} (system_prompt typed recipient_email : string)
    (llm : nat -> string -> option string)
    (call_tool : nat -> string -> gmap string pyval -> option tool_result)
    (evs : list event) (st : loop_state) (args : gmap string pyval) :
  session system_prompt (read_user_input typed) recipient_email llm call_tool
  = Some (evs, st) ->
  In (EvCallTool "ascii_exp_sum" args) evs ->
  exists s,
    args = {["input_string" := VStr s]} /\ s <> "" /\
    s = (if String.eqb typed "" then "Hello World" else typed).
Proof.
  intros Hs Hin.
  destruct (session_calls _ _ _ _ _ _ _ _ _ _ Hs Hin) as [ps Hps].
  apply ok_inj in Hps. exists (read_user_input typed).
  split; [|split; [|done]].
  - rewrite <- Hps. unfold dict. simpl. by rewrite insert_empty.
  - unfold read_user_input. by destruct (String.eqb_spec typed "").
Qed.

(** X18. With nothing typed at the second prompt and no usable
    [GMAIL_ADDRESS], the recipient is the empty string and the e-mail
    tools are not skipped: whenever the model asks for one, it is called,
    with an empty [to_address]. *)
Theorem empty_recipient_still_mails {os_path : OsPath} (system_prompt user_input : string)
    (gmail_address : option string)
    (llm : nat -> string -> option string)
    (call_tool : nat -> string -> gmap string pyval -> option tool_result)
    (k : nat) (evs0 : list event) (st : loop_state)
    (raw func_name : string) (params : list string) :
  gmail_address = None \/ gmail_address = Some "" ->
  func_name = "email_ascii_image" \/ func_name = "send_email_with_attachment" ->
  passes system_prompt user_input (read_recipient_email "" gmail_address)
    llm call_tool k
    (initial_state user_input (read_recipient_email "" gmail_address))
  = Some (evs0, st) ->
  iteration st < max_iterations ->
  llm (iteration st) (prompt_of system_prompt st) = Some raw ->
  parse_directive (PyStr.strip raw) = Ok (Call func_name params) ->
  read_recipient_email "" gmail_address = "" /\
  exists args rest stf,
    args !! "to_address" = Some (VStr "") /\
    session system_prompt user_input (read_recipient_email "" gmail_address)
      llm call_tool
    = Some (evs0 ++ (pass_prefix system_prompt st (PyStr.strip raw)
                       ++ [EvCallTool func_name args]) ++ rest, stf).
Proof.
  intros Hgmail Hname Hk Hlt Hllm Hd.
  assert (Hempty : read_recipient_email "" gmail_address = "").
  { by destruct Hgmail as [-> | ->]. }
  split; [exact Hempty|].
  destruct (email_to_address user_input (read_recipient_email "" gmail_address)
              func_name params Hname) as (args & Hmap & Hto).
  destruct (loop_pass_call system_prompt user_input _ llm call_tool
              _ _ _ _ _ Hllm Hd Hmap) as (tail & c & Hpass).
  destruct (session_pass _ _ _ _ _ _ _ _ _ _ Hk Hlt Hpass) as (rest & stf & Hs).
  exists args, (tail ++ rest), stf. split.
  - by rewrite Hto, Hempty.
  - rewrite Hs. by rewrite <- !app_assoc.
Qed.

(** X19. The file searches stop at the first candidate that exists: every
    candidate before the one returned is missing, and nothing is returned
    only when all are missing. *)
Theorem search_paths_first {os_path : OsPath} (paths : list string) :
  match search_paths paths with
  | Some p =>
      exists before after,
        paths = before ++ p :: after /\ path_exists p = true /\
        Forall (fun q => path_exists q = false) before
  | None => Forall (fun q => path_exists q = false) paths
  end.
Proof.
  induction paths as [|q paths IH]; simpl; [done|].
  destruct (path_exists q) eqn:Hq.
  - by exists [], paths.
  - destruct (search_paths paths) as [p|].
    + destruct IH as (before & after & -> & Hp & Hbefore).
      exists (q :: before), after. split_and!; try done. by constructor.
    + by constructor.
Qed.

Lemma search_paths_found {os_path : OsPath} (paths : list string) (p : string) :
  search_paths paths = Some p -> In p paths /\ path_exists p = true.
Proof.
  induction paths as [|q paths IH]; simpl; [done|].
  destruct (path_exists q) eqn:Hq.
  - intros [= <-]. auto.
  - intros [? ?]%IH. auto.
Qed.

Lemma search_paths_none {os_path : OsPath} (paths : list string) :
  search_paths paths = None <-> Forall (fun q => path_exists q = false) paths.
Proof.
  induction paths as [|q paths IH]; simpl; [done|].
  destruct (path_exists q) eqn:Hq.
  - split; [done|]. intros [? _]%Forall_cons. congruence.
  - rewrite IH. split; [by constructor|]. by intros [_ ?]%Forall_cons.
Qed.

(** X20. The server script: the agent exits exactly when none of the
    seven candidates exists; otherwise it starts the server from a
    candidate that exists, the relative [Session4/Assignment] one first
    whenever that one exists. *)
Theorem find_paint_tools_spec {os_path : OsPath} {laws : OsPathLaws os_path}
    (cwd script_dir : string) :
  (find_paint_tools cwd script_dir = None <->
   Forall (fun q => path_exists q = false) (possible_paths cwd script_dir)) /\
  (forall p,
      find_paint_tools cwd script_dir = Some p ->
      In p (possible_paths cwd script_dir) /\ path_exists p = true /\ p <> "") /\
  (path_exists "Session4/Assignment/paint_tools.py" = true ->
   find_paint_tools cwd script_dir = Some "Session4/Assignment/paint_tools.py").
Proof.
  assert (Hfound : forall p,
      search_paths (possible_paths cwd script_dir) = Some p -> p <> "").
  { intros p [_ Hp]%search_paths_found ->. rewrite exists_empty in Hp. done. }
  unfold find_paint_tools. split_and!.
  - rewrite <- search_paths_none.
    destruct (search_paths _) as [p|] eqn:Hs; [|done].
    destruct (String.eqb_spec p "") as [->|]; [|done].
    by destruct (Hfound "" eq_refl).
  - intros p.
    destruct (search_paths _) as [q|] eqn:Hs; [|done].
    destruct (String.eqb_spec q ""); [done|]. intros [= <-].
    apply search_paths_found in Hs as [? ?]. done.
  - intros Hex. simpl. by rewrite Hex.
Qed.

(** ** The tool listing *)

Lemma tools_description_cons (i : nat) (t : tool) (rest : list tool) :
  exists r,
    tools_description i (t :: rest)
    = (PyStr.of_nat (i + 1) +:+ ". " +:+ r) :: tools_description (S i) rest /\
    (forall e, tool_desc i t = Raise e -> r = "Error processing tool").
Proof.
  simpl. unfold tool_desc.
  destruct (inputSchema t) as [|items|]; simpl.
  - eexists. split; [reflexivity|done].
  - destruct (param_details items) as [details|e]; simpl;
      eexists; (split; [reflexivity|done]).
  - eexists. split; [reflexivity|done].
Qed.

Lemma tools_description_from (i : nat) (tools : list tool) :
  length (tools_description i tools) = length tools /\
  forall j t,
    tools !! j = Some t ->
    exists r,
      tools_description i tools !! j
      = Some (PyStr.of_nat (i + j + 1) +:+ ". " +:+ r) /\
      (forall e, tool_desc (i + j) t = Raise e -> r = "Error processing tool").
Proof.
  revert i. induction tools as [|t rest IH]; intros i; [done|].
  destruct (IH (S i)) as [Hlen Hnth].
  destruct (tools_description_cons i t rest) as (r & Heq & Herr).
  rewrite Heq. split; [simpl; by rewrite Hlen|].
  intros [|j] u Hu; simpl in Hu.
  - injection Hu as <-. exists r. rewrite Nat.add_0_r. done.
  - destruct (Hnth j u Hu) as (r' & Hr' & Herr'). exists r'.
    replace (i + S j) with (S i + j) by lia. done.
Qed.

(** X21. The listing is the fixed sentence [No tools available.] exactly
    when the catalogue is empty. *)
Theorem no_tools_sentence (tools : list tool) :
  format_tools_for_prompt tools = "No tools available." <-> tools = [].
Proof.
  split; [|by intros ->].
  destruct tools as [|t rest]; [done|]. unfold format_tools_for_prompt.
  destruct (tools_description_cons 0 t rest) as (r & -> & _).
  change (PyStr.of_nat (0 + 1)) with "1".
  destruct (tools_description 1 rest); discriminate.
Qed.

(** X22. The listing has one entry per tool, in catalogue order, entry [j]
    starting with the 1-based number of tool [j]; a tool the block raises
    on still gets its numbered entry, [Error processing tool], and the
    numbering of the tools after it is not shifted. *)
Theorem tools_description_numbered (tools : list tool) :
  length (tools_description 0 tools) = length tools /\
  forall j t,
    tools !! j = Some t ->
    exists r,
      tools_description 0 tools !! j
      = Some (PyStr.of_nat (j + 1) +:+ ". " +:+ r) /\
      (forall e, tool_desc j t = Raise e -> r = "Error processing tool").
Proof.
  destruct (tools_description_from 0 tools) as [Hlen Hnth].
  split; [exact Hlen|]. intros j t Ht.
  destruct (Hnth j t Ht) as (r & Hr & Herr). by exists r.
Qed.

Lemma uint_no_newline (d : Decimal.uint) :
  PyStr.count "010" (NilEmpty.string_of_uint d) = 0.
Proof. induction d; simpl; done. Qed.

Lemma join_no_newline (sep : string) (parts : list string) :
  PyStr.count "010" sep = 0 ->
  Forall (fun s => PyStr.count "010" s = 0) parts ->
  PyStr.count "010" (PyStr.join sep parts) = 0.
Proof.
  intros Hsep. induction parts as [|p parts IH]; [done|].
  intros [Hp Hparts]%Forall_cons. destruct parts as [|q parts]; [done|].
  change (PyStr.join sep (p :: q :: parts))
    with (p +:+ sep +:+ PyStr.join sep (q :: parts)).
  rewrite !count_append, Hp, Hsep, IH; done.
Qed.

Lemma param_details_no_newline (items : list (string * param_info))
    (details : list string) :
  Forall (fun s => PyStr.count "010" s = 0) (schema_texts (SchemaProperties items)) ->
  param_details items = Ok details ->
  Forall (fun s => PyStr.count "010" s = 0) details.
Proof.
  revert details. induction items as [|[n info] items IH]; intros details; simpl.
  - intros _ [= <-]. constructor.
  - intros [Hn Hrest]%Forall_cons. unfold param_detail at 1. simpl.
    destruct info as [type|]; [|done]. simpl.
    destruct (param_details items) as [ds|] eqn:Hds; [|done]. simpl.
    intros Hd%ok_inj. subst details.
    destruct type as [ty|]; simpl in Hrest.
    + apply Forall_cons in Hrest as [Hty Hrest]. constructor; [|by apply IH].
      simpl. rewrite !count_append, Hn, Hty. done.
    + constructor; [|by apply IH]. simpl. rewrite !count_append, Hn. done.
Qed.

Lemma tools_description_no_newline (i : nat) (tools : list tool) :
  Forall (fun t => Forall (fun s => PyStr.count "010" s = 0) (tool_texts t)) tools ->
  Forall (fun s => PyStr.count "010" s = 0) (tools_description i tools).
Proof.
  revert i. induction tools as [|t rest IH]; intros i; [constructor|].
  intros [Ht Hrest]%Forall_cons. simpl. constructor; [|by apply IH].
  unfold tool_texts in Ht. rewrite !Forall_app in Ht.
  destruct Ht as (Hname & Hdesc & Hschema).
  pose proof (uint_no_newline (Nat.to_uint (i + 1))) as Hnum.
  pose proof (uint_no_newline (Nat.to_uint i)) as Hidx.
  fold (PyStr.of_nat (i + 1)) in Hnum. fold (PyStr.of_nat i) in Hidx.
  assert (Hn : PyStr.count "010" (default ("tool_" +:+ PyStr.of_nat i) (name t)) = 0).
  { destruct (name t); simpl in *.
    - by apply Forall_cons in Hname as [? _].
    - by rewrite count_append, Hidx. }
  assert (Hd : PyStr.count "010"
                 (default "No description available" (description t)) = 0).
  { destruct (description t); simpl in *; [|done].
    by apply Forall_cons in Hdesc as [? _]. }
  unfold tool_desc. destruct (inputSchema t) as [|items|]; simpl.
  - rewrite !count_append, Hnum, Hn, Hd. done.
  - destruct (param_details items) as [details|e] eqn:Hdetails; simpl.
    + pose proof (param_details_no_newline _ _ Hschema Hdetails) as Hds.
      rewrite !count_append, Hnum, Hn, Hd, (join_no_newline ", " details); done.
    + rewrite count_append, Hnum. done.
  - rewrite count_append, Hnum. done.
Qed.

Lemma join_lines (d : string) (ds : list string) :
  Forall (fun s => PyStr.count "010" s = 0) (d :: ds) ->
  PyStr.count "010" (PyStr.join PyStr.nl (d :: ds)) = length ds.
Proof.
  revert d. induction ds as [|e ds IH]; intros d [Hd Hds]%Forall_cons.
  - done.
  - change (PyStr.join PyStr.nl (d :: e :: ds))
      with (d +:+ PyStr.nl +:+ PyStr.join PyStr.nl (e :: ds)).
    rewrite !count_append, Hd, IH by done. simpl. done.
Qed.

(** X23. One line per tool: when no name, description, parameter name or
    type of the catalogue contains a line break, the listing of a
    non-empty catalogue has exactly one line break fewer than there are
    tools, failing tools included. *)
Theorem listing_has_one_line_per_tool (tools : list tool) :
  tools <> [] ->
  Forall (fun t => Forall (fun s => PyStr.count "010" s = 0) (tool_texts t)) tools ->
  PyStr.count "010" (format_tools_for_prompt tools) = length tools - 1.
Proof.
  intros Hne Htexts.
  pose proof (tools_description_no_newline 0 tools Htexts) as Hall.
  pose proof (proj1 (tools_description_from 0 tools)) as Hlen.
  destruct tools as [|t rest]; [done|]. unfold format_tools_for_prompt.
  destruct (tools_description 0 (t :: rest)) as [|d ds] eqn:Hds; [done|].
  rewrite join_lines by done. simpl in *. lia.
Qed.

(** ** The POSIX reading satisfies the [os.path] facts *)

Lemma posix_join_nonempty (a : string) (p : list string) :
  a <> "" -> Posix.join a p <> "".
Proof.
  revert a. induction p as [|b rest IH]; intros a Ha; simpl; [done|].
  apply IH.
  destruct (PyStr.startswith b "/") eqn:Hb.
  - apply startswith_app in Hb as [r ->]. done.
  - destruct a as [|c a]; [done|].
    by destruct (String.eqb (String c a) "" || Posix.endswith_slash (String c a)).
Qed.

Lemma posix_normpath_nonempty (path : string) : Posix.normpath path <> "".
Proof.
  unfold Posix.normpath.
  destruct (String.eqb path ""); [done|]. cbv zeta.
  match goal with |- context [String.eqb ?s ""] =>
    destruct (String.eqb_spec s "") as [Heq|Hne]; [done|exact Hne] end.
Qed.

Lemma posix_laws (cwd : string) (files : list string) :
  OsPathLaws (Posix.os_path cwd files).
Proof.
  split; simpl.
  - reflexivity.
  - apply posix_join_nonempty.
  - intros p. apply posix_normpath_nonempty.
Qed.

(** ** Concrete sessions *)

(** The spec's e-mail scenario: the recipient slot says [ignored], the
    mapped recipient is the configured one. *)
Lemma recipient_fixed_witness :
  exists args,
    map_arguments (os_path := demo_os_path) "Hi" "a@b.com" "email_ascii_image"
      ["ignored"; "Result"; "Body text"] = Ok args /\
    args !! "to_address" = Some (VStr "a@b.com").
Proof.
  exact (proj1 (recipient_fixed (os_path := demo_os_path) demo_prompt "Hi"
                  "a@b.com" (scripted_llm []) (constant_tool "ok")
                  "email_ascii_image" ["ignored"; "Result"; "Body text"]
                  (or_introl eq_refl))).
Defined.

(** Ten turns that each call a tool: the eleventh request is never made. *)
Lemma iteration_bound_witness :
  exists evs st,
    passes (os_path := demo_os_path) demo_prompt "Hi" "a@b.com"
      (constant_llm "FUNCTION_CALL: open_paint") (constant_tool "ok")
      max_iterations (initial_state "Hi" "a@b.com") = Some (evs, st) /\
    session (os_path := demo_os_path) demo_prompt "Hi" "a@b.com"
      (constant_llm "FUNCTION_CALL: open_paint") (constant_tool "ok")
    = Some (evs ++ [EvMaxIterations], st) /\
    count_of is_generate evs = max_iterations.
Proof.
  eexists _, _. split; [vm_compute; reflexivity|].
  apply (proj2 (proj2 (proj2 (proj2
    (iteration_bound (os_path := demo_os_path) demo_prompt "Hi" "a@b.com"
       (constant_llm "FUNCTION_CALL: open_paint") (constant_tool "ok")))))).
  vm_compute. reflexivity.
Defined.

Lemma single_text_argument_witness :
  map_arguments (os_path := demo_os_path) "Hi" "a@b.com" "add_text_in_paint"
    ["268"] = Ok {["text" := VStr "268"]}.
Proof.
  exact (proj1 (single_text_argument (os_path := demo_os_path) "Hi" "a@b.com"
                  "268" [] [])).
Defined.

(** The claim as the spec words it fails on [ascii_exp_sum]: the model asks
    for [Bye], the mapper sends the session's [Hi]. *)
Lemma single_text_argument_counterexample :
  ~ (forall (os_path : OsPath) (user_input recipient_email func_name p : string)
            (rest : list string),
        In func_name ["ascii_exp_sum"; "add_text_in_paint"; "save_paint_file"] ->
        exists key,
          map_arguments user_input recipient_email func_name (p :: rest)
          = Ok {[key := VStr p]}).
Proof.
  intros H.
  destruct (H demo_os_path "Hi" "a@b.com" "ascii_exp_sum" "Bye" [])
    as [key Hkey]; [simpl; auto|].
  apply (f_equal (fun r => match r with
                           | Ok m => m !! "input_string"
                           | Raise _ => None
                           end)) in Hkey.
  unfold map_arguments, dict in Hkey. simpl in Hkey.
  rewrite lookup_insert_eq in Hkey.
  destruct (decide (key = "input_string")) as [->|Hne].
  - rewrite lookup_singleton_eq in Hkey. discriminate.
  - rewrite lookup_singleton_ne in Hkey by done. discriminate.
Qed.

(** The spec's scenario: an unrecognised first line. *)
Lemma malformed_aborts_witness :
  session (os_path := demo_os_path) demo_prompt "Hi" "a@b.com"
    (scripted_llm ["I am thinking..."]) (constant_tool "ok")
  = Some (pass_prefix demo_prompt (initial_state "Hi" "a@b.com") "I am thinking..."
            ++ [EvUnexpected "I am thinking..."],
          initial_state "Hi" "a@b.com").
Proof.
  destruct (malformed_aborts (os_path := demo_os_path) demo_prompt "Hi" "a@b.com"
              (scripted_llm ["I am thinking..."]) (constant_tool "ok")
              0 [] (initial_state "Hi" "a@b.com") "I am thinking..."
              eq_refl ltac:(vm_compute; lia) eq_refl eq_refl eq_refl)
    as [_ (evs & Hs & -> & _)].
  exact Hs.
Defined.

Lemma function_call_parse_witness :
  parse_directive "FUNCTION_CALL: draw_rectangle| 476 |274|676|374"
  = Ok (Call "draw_rectangle" ["476"; "274"; "676"; "374"]) /\
  length ["draw_rectangle"; "476"; "274"; "676"; "374"]
  = PyStr.count "|" " draw_rectangle| 476 |274|676|374" + 1 /\
  Forall PyStr.trimmed ["draw_rectangle"; "476"; "274"; "676"; "374"] /\
  exists fields,
    PyStr.join "|" fields = " draw_rectangle| 476 |274|676|374" /\
    Forall (fun f => PyStr.count "|" f = 0) fields /\
    Forall2 strips_to fields ["draw_rectangle"; "476"; "274"; "676"; "374"].
Proof.
  destruct (function_call_parse
              "FUNCTION_CALL: draw_rectangle| 476 |274|676|374" eq_refl)
    as (payload & f & ps & Hline & _ & Hd & _ & Hlen & Htrim & _ & Hsame & Hfields).
  pose proof (Hsame (Call "draw_rectangle" ["476"; "274"; "676"; "374"]) eq_refl)
    as Hcall.
  injection Hcall as <- <-.
  apply (inj (String.app FUNCTION_CALL)) in Hline. subst payload.
  split; [exact Hd|]. split; [exact Hlen|]. split; [exact Htrim|exact Hfields].
Defined.

(** One tool call, then the final answer. *)
Lemma final_answer_finishes_witness :
  exists evs0 st,
    passes (os_path := demo_os_path) demo_prompt "Hi" "a@b.com"
      (scripted_llm ["FUNCTION_CALL: ascii_exp_sum|Hi"; "FINAL_ANSWER: done"])
      (constant_tool "268") 1 (initial_state "Hi" "a@b.com") = Some (evs0, st) /\
    session (os_path := demo_os_path) demo_prompt "Hi" "a@b.com"
      (scripted_llm ["FUNCTION_CALL: ascii_exp_sum|Hi"; "FINAL_ANSWER: done"])
      (constant_tool "268")
    = Some (evs0 ++ pass_prefix demo_prompt st "FINAL_ANSWER: done"
              ++ [EvComplete "FINAL_ANSWER: done"], st).
Proof.
  eexists _, _. split; [vm_compute; reflexivity|].
  destruct (final_answer_finishes (os_path := demo_os_path) demo_prompt "Hi" "a@b.com"
              (scripted_llm ["FUNCTION_CALL: ascii_exp_sum|Hi"; "FINAL_ANSWER: done"])
              (constant_tool "268") 1 _ _ "FINAL_ANSWER: done"
              ltac:(vm_compute; reflexivity) ltac:(vm_compute; lia) eq_refl eq_refl)
    as [_ (evs & Hs & -> & _)].
  exact Hs.
Defined.

(** Two tool calls: two entries, counter at two. *)
Lemma transcript_invariant_witness :
  exists evs st,
    passes (os_path := demo_os_path) demo_prompt "Hi" "a@b.com"
      (scripted_llm ["FUNCTION_CALL: ascii_exp_sum|Hi"; "FUNCTION_CALL: open_paint"])
      (constant_tool "268") 2 (initial_state "Hi" "a@b.com") = Some (evs, st) /\
    length (iteration_response st) = count_of is_invoked evs /\
    iteration st = length (iteration_response st) /\
    count_of is_returned evs = length (iteration_response st).
Proof.
  eexists _, _. split; [vm_compute; reflexivity|].
  apply (proj1 (transcript_invariant (os_path := demo_os_path) demo_prompt "Hi"
                  "a@b.com"
                  (scripted_llm ["FUNCTION_CALL: ascii_exp_sum|Hi";
                                 "FUNCTION_CALL: open_paint"])
                  (constant_tool "268")) 2).
  vm_compute. reflexivity.
Defined.

(** A file that is in none of the candidate directories. *)
Lemma attachment_path_total_witness :
  exists args path,
    map_arguments (os_path := demo_os_path) "Hi" "a@b.com"
      "send_email_with_attachment" ["x@y.org"; "Result"; "Body"; "missing.png"]
    = Ok args /\
    args !! "attachment_path" = Some (VStr path) /\
    path <> "" /\
    ((4 <= length ["x@y.org"; "Result"; "Body"; "missing.png"] /\
      exists filename,
        ["x@y.org"; "Result"; "Body"; "missing.png"] !! 3 = Some filename /\
        path = first_existing (os_path := demo_os_path)
                 (candidate_paths (os_path := demo_os_path) filename)
                 (path_abspath (OsPath := demo_os_path) filename)) \/
     (length ["x@y.org"; "Result"; "Body"; "missing.png"] < 4 /\
      path = "paint_visualization.png")).
Proof.
  exact (attachment_path_total (os_path := demo_os_path) "Hi" "a@b.com"
           (OsPathLaws0 := posix_laws _ _)
           ["x@y.org"; "Result"; "Body"; "missing.png"]).
Defined.

(** Four plain coordinates; a coordinate that is not a number, on the
    first turn; and a coordinate of 4301 digits, on the first turn. *)
Lemma draw_rectangle_integers_witness :
  map_arguments (os_path := demo_os_path) "Hi" "a@b.com" "draw_rectangle"
    ["476"; "274"; "676"; "374"]
  = Ok (dict [("x1", VInt 476); ("y1", VInt 274);
              ("x2", VInt 676); ("y2", VInt 374)]) /\
  (exists lit,
      In lit (take 4 ["476"; "27a4"; "676"; "374"]) /\
      PyInt.parse lit = None /\
      map_arguments (os_path := demo_os_path) "Hi" "a@b.com" "draw_rectangle"
        ["476"; "27a4"; "676"; "374"] = Raise (ValueError lit) /\
      session (os_path := demo_os_path) demo_prompt "Hi" "a@b.com"
        (scripted_llm ["FUNCTION_CALL: draw_rectangle|476|27a4|676|374"])
        (constant_tool "ok")
      = Some ([] ++ pass_prefix demo_prompt (initial_state "Hi" "a@b.com")
                      "FUNCTION_CALL: draw_rectangle|476|27a4|676|374"
                 ++ [EvError 1 (ValueError lit)],
              initial_state "Hi" "a@b.com")) /\
  (exists lit,
      In lit (take 4 [numeral_text long_numeral; "1"; "2"; "3"]) /\
      PyInt.parse lit = None /\
      map_arguments (os_path := demo_os_path) "Hi" "a@b.com" "draw_rectangle"
        [numeral_text long_numeral; "1"; "2"; "3"] = Raise (ValueError lit) /\
      session (os_path := demo_os_path) demo_prompt "Hi" "a@b.com"
        (scripted_llm [long_line]) (constant_tool "ok")
      = Some ([] ++ pass_prefix demo_prompt (initial_state "Hi" "a@b.com")
                      long_line
                 ++ [EvError 1 (ValueError lit)],
              initial_state "Hi" "a@b.com")).
Proof.
  split; [|split].
  - apply (proj1 (proj2 (proj2
             (draw_rectangle_integers (os_path := demo_os_path) demo_prompt
                "Hi" "a@b.com" (scripted_llm []) (constant_tool "ok")
                ["476"; "274"; "676"; "374"] ltac:(simpl; lia))))
           {| num_sign := Unsigned; num_digits := [4; 7; 6] |}
           {| num_sign := Unsigned; num_digits := [2; 7; 4] |}
           {| num_sign := Unsigned; num_digits := [6; 7; 6] |}
           {| num_sign := Unsigned; num_digits := [3; 7; 4] |});
      [reflexivity|].
    repeat constructor; simpl; try done; unfold PyInt.int_max_str_digits; lia.
  - pose proof (draw_rectangle_integers (os_path := demo_os_path) demo_prompt
                  "Hi" "a@b.com"
                  (scripted_llm ["FUNCTION_CALL: draw_rectangle|476|27a4|676|374"])
                  (constant_tool "ok") ["476"; "27a4"; "676"; "374"]
                  ltac:(simpl; lia)) as (_ & Hfail & _ & Hnot).
    destruct (Hfail (Hnot ltac:(right; left; right; left; reflexivity)))
      as (lit & Hin & Hnone & Hmap & Hsession).
    exists lit. split; [exact Hin|]. split; [exact Hnone|]. split; [exact Hmap|].
    exact (Hsession 0 [] (initial_state "Hi" "a@b.com")
             "FUNCTION_CALL: draw_rectangle|476|27a4|676|374"
             eq_refl ltac:(vm_compute; lia) eq_refl eq_refl).
  - pose proof (draw_rectangle_integers (os_path := demo_os_path) demo_prompt
                  "Hi" "a@b.com" (scripted_llm [long_line]) (constant_tool "ok")
                  [numeral_text long_numeral; "1"; "2"; "3"]
                  ltac:(simpl; lia)) as (_ & Hfail & _ & Hnot).
    assert (Hlong : over_long long_numeral).
    { split.
      - exact (Forall_replicate (fun d => d < 10) 4301 1 ltac:(cbv beta; lia)).
      - unfold long_numeral. cbn [num_digits]. rewrite length_replicate.
        unfold PyInt.int_max_str_digits. lia. }
    destruct (Hfail (Hnot ltac:(left; right; right; by exists long_numeral)))
      as (lit & Hin & Hnone & Hmap & Hsession).
    exists lit. split; [exact Hin|]. split; [exact Hnone|]. split; [exact Hmap|].
    exact (Hsession 0 [] (initial_state "Hi" "a@b.com") long_line
             eq_refl ltac:(vm_compute; lia) eq_refl
             ltac:(vm_compute; reflexivity)).
Defined.

(** A tool the mapper does not know is still called, with no arguments. *)
Lemma empty_mapping_still_invoked_witness :
  map_arguments (os_path := demo_os_path) "Hi" "a@b.com" "erase_canvas" ["all"]
  = Ok ∅ /\
  exists rest stf,
    session (os_path := demo_os_path) demo_prompt "Hi" "a@b.com"
      (scripted_llm ["FUNCTION_CALL: erase_canvas|all"]) (constant_tool "ok")
    = Some ([] ++ (pass_prefix demo_prompt (initial_state "Hi" "a@b.com")
                     "FUNCTION_CALL: erase_canvas|all"
                     ++ [EvCallTool "erase_canvas" ∅]) ++ rest, stf).
Proof.
  pose proof (empty_mapping_still_invoked (os_path := demo_os_path) demo_prompt
                "Hi" "a@b.com"
                (scripted_llm ["FUNCTION_CALL: erase_canvas|all"])
                (constant_tool "ok") "erase_canvas" ["all"]) as [Hempty Hcall].
  assert (Hmap : map_arguments (os_path := demo_os_path) "Hi" "a@b.com"
                   "erase_canvas" ["all"] = Ok ∅).
  { apply Hempty. left. simpl. intuition discriminate. }
  split; [exact Hmap|].
  exact (Hcall Hmap 0 [] (initial_state "Hi" "a@b.com")
           "FUNCTION_CALL: erase_canvas|all"
           eq_refl ltac:(vm_compute; lia) eq_refl eq_refl).
Defined.

(** ** The spec's scenarios *)

Example scenario_ascii_exp_sum :
  snd <$> session (os_path := demo_os_path) demo_prompt "Hi" "a@b.com"
            (scripted_llm ["FUNCTION_CALL: ascii_exp_sum|Hi"; "FINAL_ANSWER: done"])
            (constant_tool "268")
  = Some {| iteration := 1;
            iteration_response := ["In iteration 1, ascii_exp_sum returned: 268"];
            query := next_query ["In iteration 1, ascii_exp_sum returned: 268"] |}.
Proof. vm_compute. reflexivity. Qed.

Example scenario_draw_rectangle :
  map_arguments (os_path := demo_os_path) "Hi" "a@b.com" "draw_rectangle"
    ["476"; "274"; "676"; "374"]
  = Ok (dict [("x1", VInt 476); ("y1", VInt 274); ("x2", VInt 676); ("y2", VInt 374)]).
Proof. reflexivity. Qed.

Example scenario_email :
  parse_directive "FUNCTION_CALL: email_ascii_image|ignored|Result|Body text"
  = Ok (Call "email_ascii_image" ["ignored"; "Result"; "Body text"]) /\
  map_arguments (os_path := demo_os_path) "Hi" "a@b.com" "email_ascii_image"
    ["ignored"; "Result"; "Body text"]
  = Ok (dict [("to_address", VStr "a@b.com"); ("subject", VStr "Result");
              ("body", VStr "Body text")]).
Proof. split; reflexivity. Qed.

Example scenario_attachment_probe :
  attachment_path (os_path := demo_os_path) "visual.png" = "Assignment/visual.png" /\
  attachment_path (os_path := demo_os_path) "missing.png" = "/home/agent/missing.png".
Proof. split; reflexivity. Qed.

(** The cap on digits: 4300 are read, 4301 are refused, leading zeros
    counted. *)
Example scenario_digit_cap :
  is_Some (PyInt.parse (digit_string (replicate 4300 1))) /\
  PyInt.parse (digit_string (replicate 4301 1)) = None /\
  PyInt.parse (digit_string (replicate 4301 0)) = None /\
  PyInt.parse "+007" = Some 7%Z.
Proof.
  split; [vm_compute; by eexists|]. split; [vm_compute; reflexivity|].
  split; [vm_compute; reflexivity|reflexivity].
Qed.

(** Only the first colon separates the marker from the payload. *)
Example scenario_colon_in_payload :
  parse_directive "FUNCTION_CALL: add_text_in_paint| Sum: 268 "
  = Ok (Call "add_text_in_paint" ["Sum: 268"]).
Proof. reflexivity. Qed.

Example scenario_strings :
  PyStr.strip "  draw_rectangle " = "draw_rectangle" /\
  PyStr.split "|" "a||b" = ["a"; ""; "b"] /\
  PyStr.split1 ":" "K: a:b" = ["K"; " a:b"] /\
  PyInt.parse "476" = Some 476%Z /\ PyInt.parse "-1_000" = Some (-1000)%Z /\
  PyInt.parse "12a" = None /\ PyInt.parse "" = None /\ PyInt.parse "1__0" = None.
Proof. repeat split; reflexivity. Qed.

(** A provider that returns an empty content list: the call returned, but
    no text can be taken from it, so the turn is reported and nothing is
    recorded. *)
Example scenario_empty_content :
  session (os_path := demo_os_path) demo_prompt "Hi" "a@b.com"
    (scripted_llm ["FUNCTION_CALL: open_paint"]) (scripted_tool [ContentList []])
  = Some (pass_prefix demo_prompt (initial_state "Hi" "a@b.com")
            "FUNCTION_CALL: open_paint"
            ++ [EvCallTool "open_paint" ∅; EvToolReturned (ContentList []);
                EvError 1 IndexError],
          initial_state "Hi" "a@b.com").
Proof. vm_compute. reflexivity. Qed.

(** A response that is empty once stripped is malformed too. *)
Example scenario_empty_response :
  session (os_path := demo_os_path) demo_prompt "Hi" "a@b.com"
    (scripted_llm ["   "]) (constant_tool "ok")
  = Some (pass_prefix demo_prompt (initial_state "Hi" "a@b.com") ""
            ++ [EvUnexpected ""],
          initial_state "Hi" "a@b.com").
Proof. vm_compute. reflexivity. Qed.

(** ** Further concrete sessions *)

(** The model writes [a|b] as the text: the tool is sent [a] only. *)
Lemma parsed_fields_have_no_pipe_witness :
  Forall (fun s => PyStr.count "|" s = 0) ["add_text_in_paint"; "a"; "b"] /\
  exists evs st args,
    session (os_path := demo_os_path) demo_prompt "Hi" "a@b.com"
      (scripted_llm ["FUNCTION_CALL: add_text_in_paint|a|b"]) (constant_tool "ok")
    = Some (evs, st) /\
    In (EvCallTool "add_text_in_paint" args) evs /\
    args !! "text" = Some (VStr "a") /\
    PyStr.count "|" "a" = 0.
Proof.
  pose proof (parsed_fields_have_no_pipe (os_path := demo_os_path) demo_prompt
                "Hi" "a@b.com"
                (scripted_llm ["FUNCTION_CALL: add_text_in_paint|a|b"])
                (constant_tool "ok")) as [Hfields Hcalls].
  split.
  - exact (Hfields "FUNCTION_CALL: add_text_in_paint|a|b"
             "add_text_in_paint" ["a"; "b"] eq_refl).
  - eexists _, _, _. split; [vm_compute; reflexivity|].
    split; [do 3 right; left; reflexivity|]. split; [reflexivity|].
    refine (proj2 (Hcalls _ _ "add_text_in_paint" _
                     ltac:(vm_compute; reflexivity)
                     ltac:(do 3 right; left; reflexivity))
              "text" "a" ltac:(reflexivity) ltac:(left; left; reflexivity)).
Defined.

Lemma call_line_round_trip_witness :
  parse_directive
    ("FUNCTION_CALL: " +:+ PyStr.join "|" ["draw_rectangle"; "476"; "274"; "676"; "374"])
  = Ok (Call "draw_rectangle" ["476"; "274"; "676"; "374"]).
Proof.
  apply (call_line_round_trip "draw_rectangle" ["476"; "274"; "676"; "374"]).
  repeat constructor.
Defined.

Lemma map_arguments_raises_only_on_coordinates_witness :
  "draw_rectangle" = "draw_rectangle" /\
  4 <= length ["476"; "27a4"; "676"; "374"] /\
  exists lit,
    In lit (take 4 ["476"; "27a4"; "676"; "374"]) /\ PyInt.parse lit = None /\
    ValueError "27a4" = ValueError lit.
Proof.
  exact (map_arguments_raises_only_on_coordinates (os_path := demo_os_path)
           "Hi" "a@b.com" "draw_rectangle" ["476"; "27a4"; "676"; "374"]
           (ValueError "27a4") eq_refl).
Defined.

Lemma surplus_parameters_ignored_witness :
  map_arguments (os_path := demo_os_path) "Hi" "a@b.com" "add_text_in_paint"
    (["268"] ++ ["in red"; "bold"])
  = map_arguments (os_path := demo_os_path) "Hi" "a@b.com" "add_text_in_paint"
      ["268"].
Proof.
  apply (surplus_parameters_ignored (os_path := demo_os_path) "Hi" "a@b.com"
           "add_text_in_paint" ["268"] ["in red"; "bold"]).
  vm_compute. lia.
Defined.

(** A subject, a body and no file name: all three parameters are dropped. *)
Lemma shortfall_drops_every_parameter_witness :
  map_arguments (os_path := demo_os_path) "Hi" "a@b.com"
    "send_email_with_attachment" ["x@y.org"; "Result"; "Body"]
  = map_arguments (os_path := demo_os_path) "Hi" "a@b.com"
      "send_email_with_attachment" [].
Proof.
  apply (shortfall_drops_every_parameter (os_path := demo_os_path) "Hi" "a@b.com"
           "send_email_with_attachment" ["x@y.org"; "Result"; "Body"]).
  vm_compute. lia.
Defined.

Lemma email_subject_and_body_witness :
  exists args,
    map_arguments (os_path := demo_os_path) "Hi" "a@b.com" "email_ascii_image"
      ["ignored"; "Result"; "Body text"] = Ok args /\
    args !! "subject" = Some (VStr "Result") /\
    args !! "body" = Some (VStr "Body text").
Proof.
  destruct (email_subject_and_body (os_path := demo_os_path) "Hi" "a@b.com"
              "email_ascii_image" ["ignored"; "Result"; "Body text"]
              (or_introl eq_refl)) as (args & Hmap & Henough & _).
  exists args. split; [exact Hmap|]. apply Henough. vm_compute. lia.
Defined.

Lemma mapped_keys_witness :
  exists args,
    map_arguments (os_path := demo_os_path) "Hi" "a@b.com" "draw_rectangle"
      ["476"; "274"; "676"; "374"] = Ok args /\
    (args = ∅ \/ dom args = list_to_set (argument_names "draw_rectangle")).
Proof.
  eexists. split; [reflexivity|].
  apply (mapped_keys (os_path := demo_os_path) "Hi" "a@b.com" "draw_rectangle"
           ["476"; "274"; "676"; "374"]).
  reflexivity.
Defined.

(** One recorded call, then an unrecognised line: two requests. *)
Lemma request_counts_witness :
  exists evs st,
    session (os_path := demo_os_path) demo_prompt "Hi" "a@b.com"
      (scripted_llm ["FUNCTION_CALL: open_paint"; "Let me think"])
      (constant_tool "ok") = Some (evs, st) /\
    count_of is_generate evs = Nat.min (iteration st + 1) max_iterations /\
    count_of is_banner evs = count_of is_generate evs /\
    iteration st <= count_of is_call evs <= count_of is_generate evs.
Proof.
  eexists _, _. split; [vm_compute; reflexivity|].
  apply (request_counts (os_path := demo_os_path) demo_prompt "Hi" "a@b.com"
           (scripted_llm ["FUNCTION_CALL: open_paint"; "Let me think"])
           (constant_tool "ok")).
  vm_compute. reflexivity.
Defined.

Lemma later_prompts_carry_the_transcript_witness :
  exists evs st rest stf,
    passes (os_path := demo_os_path) demo_prompt "Hi" "a@b.com"
      (scripted_llm ["FUNCTION_CALL: ascii_exp_sum|Hi"; "FINAL_ANSWER: done"])
      (constant_tool "268") 1 (initial_state "Hi" "a@b.com") = Some (evs, st) /\
    session (os_path := demo_os_path) demo_prompt "Hi" "a@b.com"
      (scripted_llm ["FUNCTION_CALL: ascii_exp_sum|Hi"; "FINAL_ANSWER: done"])
      (constant_tool "268")
    = Some (evs
              ++ [EvIteration (1 + 1);
                  EvGenerate (demo_prompt +:+ PyStr.nl +:+ PyStr.nl +:+ "Query: "
                              +:+ next_query (iteration_response st))]
              ++ rest, stf).
Proof.
  eexists _, _.
  assert (Hk : passes (os_path := demo_os_path) demo_prompt "Hi" "a@b.com"
                 (scripted_llm ["FUNCTION_CALL: ascii_exp_sum|Hi"; "FINAL_ANSWER: done"])
                 (constant_tool "268") 1 (initial_state "Hi" "a@b.com")
               = Some _) by (vm_compute; reflexivity).
  destruct (later_prompts_carry_the_transcript (os_path := demo_os_path)
              demo_prompt "Hi" "a@b.com" _ _ 1 _ _ Hk
              ltac:(lia) ltac:(vm_compute; lia)) as (rest & stf & Hs).
  exists rest, stf. split; [exact Hk|exact Hs].
Defined.

(** The model backend times out on the first request. *)
Lemma generation_failure_aborts_witness :
  session (os_path := demo_os_path) demo_prompt "Hi" "a@b.com"
    (scripted_llm []) (constant_tool "ok")
  = Some ([] ++ [EvIteration (0 + 1);
                 EvGenerate (prompt_of demo_prompt (initial_state "Hi" "a@b.com"));
                 EvError (0 + 1) GenerationError],
          initial_state "Hi" "a@b.com").
Proof.
  exact (generation_failure_aborts (os_path := demo_os_path) demo_prompt "Hi"
           "a@b.com" (scripted_llm []) (constant_tool "ok")
           0 [] (initial_state "Hi" "a@b.com")
           eq_refl ltac:(vm_compute; lia) eq_refl).
Defined.

Lemma mapped_call_is_made_witness :
  exists rest stf,
    session (os_path := demo_os_path) demo_prompt "Hi" "a@b.com"
      (scripted_llm ["FUNCTION_CALL: save_paint_file|visual.png"])
      (constant_tool "saved")
    = Some ([] ++ (pass_prefix demo_prompt (initial_state "Hi" "a@b.com")
                     "FUNCTION_CALL: save_paint_file|visual.png"
                     ++ [EvCallTool "save_paint_file"
                           (dict [("filename", VStr "visual.png")])]) ++ rest,
            stf).
Proof.
  exact (mapped_call_is_made (os_path := demo_os_path) demo_prompt "Hi" "a@b.com"
           (scripted_llm ["FUNCTION_CALL: save_paint_file|visual.png"])
           (constant_tool "saved") 0 [] (initial_state "Hi" "a@b.com")
           "FUNCTION_CALL: save_paint_file|visual.png" "save_paint_file"
           ["visual.png"] _
           eq_refl ltac:(vm_compute; lia) eq_refl eq_refl eq_refl).
Defined.

(** The provider raises on the first call. *)
Lemma tool_error_aborts_witness :
  session (os_path := demo_os_path) demo_prompt "Hi" "a@b.com"
    (scripted_llm ["FUNCTION_CALL: open_paint"]) (scripted_tool [])
  = Some ([] ++ pass_prefix demo_prompt (initial_state "Hi" "a@b.com")
                  "FUNCTION_CALL: open_paint"
             ++ [EvCallTool "open_paint" ∅; EvError (0 + 1) ToolError],
          initial_state "Hi" "a@b.com").
Proof.
  exact (proj1 (tool_error_aborts (os_path := demo_os_path) demo_prompt "Hi"
                  "a@b.com" (scripted_llm ["FUNCTION_CALL: open_paint"])
                  (scripted_tool []) 0 [] (initial_state "Hi" "a@b.com")
                  "FUNCTION_CALL: open_paint" "open_paint" [] ∅
                  eq_refl ltac:(vm_compute; lia) eq_refl eq_refl eq_refl eq_refl)).
Defined.

(** The provider answers with an empty content list. *)
Lemma result_without_text_aborts_witness :
  session (os_path := demo_os_path) demo_prompt "Hi" "a@b.com"
    (scripted_llm ["FUNCTION_CALL: open_paint"]) (scripted_tool [ContentList []])
  = Some ([] ++ pass_prefix demo_prompt (initial_state "Hi" "a@b.com")
                  "FUNCTION_CALL: open_paint"
             ++ [EvCallTool "open_paint" ∅; EvToolReturned (ContentList []);
                 EvError (0 + 1) IndexError],
          initial_state "Hi" "a@b.com").
Proof.
  exact (proj1 (result_without_text_aborts (os_path := demo_os_path) demo_prompt
                  "Hi" "a@b.com" (scripted_llm ["FUNCTION_CALL: open_paint"])
                  (scripted_tool [ContentList []]) 0 []
                  (initial_state "Hi" "a@b.com")
                  "FUNCTION_CALL: open_paint" "open_paint" [] ∅ []
                  eq_refl ltac:(vm_compute; lia) eq_refl eq_refl eq_refl eq_refl
                  (or_introl eq_refl))).
Defined.

(** Nothing typed at the first prompt: the model's [Bye] is replaced by
    the default string. *)
Lemma input_string_never_empty_witness :
  exists evs st args,
    session (os_path := demo_os_path) demo_prompt (read_user_input "") "a@b.com"
      (scripted_llm ["FUNCTION_CALL: ascii_exp_sum|Bye"]) (constant_tool "1")
    = Some (evs, st) /\
    In (EvCallTool "ascii_exp_sum" args) evs /\
    exists s,
      args = {["input_string" := VStr s]} /\ s <> "" /\
      s = (if String.eqb "" "" then "Hello World" else "").
Proof.
  eexists _, _, _. split; [vm_compute; reflexivity|].
  split; [do 3 right; left; reflexivity|].
  apply (input_string_never_empty (os_path := demo_os_path) demo_prompt ""
           "a@b.com" (scripted_llm ["FUNCTION_CALL: ascii_exp_sum|Bye"])
           (constant_tool "1")
           _ _ _ ltac:(vm_compute; reflexivity) ltac:(do 3 right; left; reflexivity)).
Defined.

Lemma empty_recipient_still_mails_witness :
  exists args rest stf,
    args !! "to_address" = Some (VStr "") /\
    session (os_path := demo_os_path) demo_prompt "Hi" (read_recipient_email "" None)
      (scripted_llm ["FUNCTION_CALL: email_ascii_image|a@b.com|Result|Body"])
      (constant_tool "sent")
    = Some ([] ++ (pass_prefix demo_prompt
                     (initial_state "Hi" (read_recipient_email "" None))
                     "FUNCTION_CALL: email_ascii_image|a@b.com|Result|Body"
                     ++ [EvCallTool "email_ascii_image" args]) ++ rest, stf).
Proof.
  exact (proj2 (empty_recipient_still_mails (os_path := demo_os_path) demo_prompt
                  "Hi" None
                  (scripted_llm ["FUNCTION_CALL: email_ascii_image|a@b.com|Result|Body"])
                  (constant_tool "sent") 0 []
                  (initial_state "Hi" (read_recipient_email "" None))
                  "FUNCTION_CALL: email_ascii_image|a@b.com|Result|Body"
                  "email_ascii_image" ["a@b.com"; "Result"; "Body"]
                  (or_introl eq_refl) (or_introl eq_refl)
                  eq_refl ltac:(vm_compute; lia) eq_refl eq_refl)).
Defined.

(** The script lies next to the working directory's [paint_tools.py] only. *)
Lemma find_paint_tools_spec_witness :
  find_paint_tools (os_path := Posix.os_path "/home/agent" ["paint_tools.py"])
    "/home/agent" "/opt/agent" = Some "paint_tools.py" /\
  path_exists (OsPath := Posix.os_path "/home/agent" ["paint_tools.py"])
    "paint_tools.py" = true /\
  "paint_tools.py" <> "".
Proof.
  split; [reflexivity|].
  exact (proj2 (proj1 (proj2
           (find_paint_tools_spec
              (os_path := Posix.os_path "/home/agent" ["paint_tools.py"])
              (laws := posix_laws _ _) "/home/agent" "/opt/agent"))
           "paint_tools.py" eq_refl)).
Defined.

Lemma listing_has_one_line_per_tool_witness :
  PyStr.count "010" (format_tools_for_prompt demo_tools) = length demo_tools - 1.
Proof.
  apply (listing_has_one_line_per_tool demo_tools); [done|].
  repeat constructor.
Defined.

Example scenario_tool_listing :
  format_tools_for_prompt demo_tools
  = "1. ascii_exp_sum(input_string: string) - Sum of exponentials of ASCII codes"
    +:+ PyStr.nl +:+ "2. open_paint(no parameters) - Open Paint"
    +:+ PyStr.nl +:+ "3. Error processing tool".
Proof. reflexivity. Qed.
